(** * report_generator.py: fetch three JSON APIs, build a three-sheet
      workbook, mail it together with the error log.

    Shallow embedding of [src/report_generator.py].  The script talks to
    four outside parties: the process environment, the HTTP servers reached
    through [requests], the local file system (workbook and [error.log])
    and the SMTP server reached through [smtplib].  What they answer is
    collected in a [world] record; what the script does to them (files
    written, lines printed, requests issued, SMTP commands accepted) is
    collected in a [state] record threaded through a state-and-exception
    monad [M].  Python's [try ... except Exception] is [try_except].

    The libraries are modelled at the interface the script uses:
    - requests: a request either raises or returns a response with a
      status and a body that parses or not; [raise_for_status] raises for
      the statuses 400 to 599;
    - openpyxl: a worksheet is the sequence of rows appended to it, each
      cell holding the Python value it was given, with the font, fill and
      column widths the script sets; how openpyxl converts values to Excel
      cell types is not modelled;
    - smtplib: the server accepts or refuses each command of the session;
    - files: a finite map from paths to contents; the clock is read by
      logging, by the workbook and by the email body. *)

From Stdlib Require Import ZArith String Ascii List Lia.
From stdpp Require Import base strings gmap list pretty.

Open Scope string_scope.
Open Scope Z_scope.

(** ** Python values *)

(** What [json.loads] can return.  A dict is an association list in
    insertion order (keys of a parsed JSON object are unique); a float is
    carried by its printed form. *)
#[warnings="-register-all"]
Inductive pyval : Type :=
| PNone
| PBool (b : bool)
| PInt (n : Z)
| PFloat (lit : string)
| PStr (s : string)
| PList (xs : list pyval)
| PDict (kvs : list (string * pyval)).

Abbreviation record := (list (string * pyval)).

(** Subclasses of [Exception] that the script can meet. *)
Inductive exn_class : Type :=
| HTTPError | RequestException | JSONDecodeError
| ValueError | TypeError | AttributeError
| SMTPException | OSError.

Record exn : Type := Exn { exn_cls : exn_class; exn_msg : string }.

(** [str(exc)] *)
Definition exn_str (e : exn) : string := exn_msg e.

Inductive result (A : Type) : Type :=
| Ok (a : A)
| Raise (e : exn).
Arguments Ok {A} a.
Arguments Raise {A} e.

(** ** Strings *)

Definition nl : string := String (ascii_of_nat 10) "".
Definition dquote : ascii := ascii_of_nat 34.
Definition squote : ascii := ascii_of_nat 39.

(** [sep.join(parts)] *)
Fixpoint join (sep : string) (parts : list string) : string :=
  match parts with
  | [] => ""
  | [p] => p
  | p :: ps => p +:+ sep +:+ join sep ps
  end.

(** [len(s)] counts code points: the bytes of a UTF-8 string that are not
    continuation bytes (10xxxxxx). *)
Definition is_continuation (c : ascii) : bool :=
  let n := nat_of_ascii c in (128 <=? n)%nat && (n <? 192)%nat.

Fixpoint str_len (s : string) : nat :=
  match s with
  | EmptyString => 0%nat
  | String c rest => ((if is_continuation c then 0 else 1) + str_len rest)%nat
  end.

Fixpoint str_contains (c : ascii) (s : string) : bool :=
  match s with
  | EmptyString => false
  | String d rest => if Ascii.eqb c d then true else str_contains c rest
  end.

(** The characters of a string, one string per code point. *)
Fixpoint code_points (s : string) : list string :=
  match s with
  | EmptyString => []
  | String c rest =>
      match rest with
      | String d _ =>
          if is_continuation d then
            match code_points rest with
            | p :: ps => String c p :: ps
            | [] => [String c ""]
            end
          else String c "" :: code_points rest
      | EmptyString => [String c ""]
      end
  end.

(** [os.path.basename(p)]: what follows the last slash. *)
Fixpoint basename_from (acc p : string) : string :=
  match p with
  | EmptyString => acc
  | String c rest =>
      if Ascii.eqb c "/" then basename_from "" rest
      else basename_from (acc +:+ String c "") rest
  end.

Definition basename (p : string) : string := basename_from "" p.

(** *** [int(s)] on a string *)

Definition is_py_space (c : ascii) : bool :=
  let n := nat_of_ascii c in
  ((9 <=? n) && (n <=? 13) || (n =? 32))%nat.

Definition digit_of (c : ascii) : option Z :=
  let n := nat_of_ascii c in
  if ((48 <=? n) && (n <=? 57))%nat then Some (Z.of_nat n - 48) else None.

(** Decimal digits, single underscores allowed between two digits. *)
Fixpoint parse_digits (cs : list ascii) (acc : Z) (after_digit : bool) : option Z :=
  match cs with
  | [] => if after_digit then Some acc else None
  | c :: rest =>
      match digit_of c with
      | Some d => parse_digits rest (10 * acc + d) true
      | None =>
          if Ascii.eqb c "_" then
            if after_digit then parse_digits rest acc false else None
          else None
      end
  end.

Fixpoint lstrip (cs : list ascii) : list ascii :=
  match cs with
  | c :: rest => if is_py_space c then lstrip rest else cs
  | [] => []
  end.

Definition strip (cs : list ascii) : list ascii :=
  rev (lstrip (rev (lstrip cs))).

(** The tables of the interpreter's Unicode database that [int] consults
    for characters outside ASCII, keyed by the UTF-8 bytes of the
    character: is it white space, and which decimal digit is it. *)
Record unicode_db : Type := UnicodeDb {
  uc_isspace : string -> bool;
  uc_decimal : string -> option nat
}.

Definition is_ascii (s : string) : bool :=
  forallb (fun c => (nat_of_ascii c <? 128)%nat) (list_ascii_of_string s).

(** One character on its way to the ASCII parser: kept below 127, else a
    blank for white space, its ASCII digit for a decimal digit, and a
    question mark for anything else. *)
Definition to_ascii (db : unicode_db) (ch : string) : ascii :=
  match ch with
  | String c EmptyString =>
      if (nat_of_ascii c <? 127)%nat then c
      else if uc_isspace db ch then " "%char
      else match uc_decimal db ch with
           | Some d => ascii_of_nat (48 + d)
           | None => "?"%char
           end
  | _ =>
      if uc_isspace db ch then " "%char
      else match uc_decimal db ch with
           | Some d => ascii_of_nat (48 + d)
           | None => "?"%char
           end
  end.

(** The integer denoted by [s], if [s] is an integer literal for [int]:
    optional surrounding white space, optional sign, decimal digits. *)
Definition int_literal (db : unicode_db) (s : string) : option Z :=
  let cs := if is_ascii s then list_ascii_of_string s
            else map (to_ascii db) (code_points s) in
  match strip cs with
  | c :: rest =>
      if Ascii.eqb c "-" then Z.opp <$> parse_digits rest 0 false
      else if Ascii.eqb c "+" then parse_digits rest 0 false
      else parse_digits (c :: rest) 0 false
  | [] => None
  end.

(** *** [repr] and [str] *)

Definition hex_digit (n : nat) : ascii :=
  if (n <? 10)%nat then ascii_of_nat (48 + n) else ascii_of_nat (87 + n).

Definition repr_char (q : ascii) (c : ascii) : string :=
  let n := nat_of_ascii c in
  if Ascii.eqb c "\" then "\\"
  else if Ascii.eqb c q then String "\" (String q "")
  else if (n =? 10)%nat then "\n"
  else if (n =? 13)%nat then "\r"
  else if (n =? 9)%nat then "\t"
  else if ((n <? 32) || (n =? 127))%nat then
    "\x" +:+ String (hex_digit (n / 16)) (String (hex_digit (n mod 16)) "")
  else String c "".

Fixpoint repr_chars (q : ascii) (s : string) : string :=
  match s with
  | EmptyString => ""
  | String c rest => repr_char q c +:+ repr_chars q rest
  end.

Definition repr_str (s : string) : string :=
  let q := if str_contains squote s && negb (str_contains dquote s)
           then dquote else squote in
  String q (repr_chars q s) +:+ String q "".

Fixpoint py_repr (v : pyval) : string :=
  match v with
  | PNone => "None"
  | PBool true => "True"
  | PBool false => "False"
  | PInt n => pretty n
  | PFloat lit => lit
  | PStr s => repr_str s
  | PList xs => "[" +:+ join ", " (map py_repr xs) +:+ "]"
  | PDict kvs =>
      "{" +:+ join ", " (map (fun kv => repr_str (fst kv) +:+ ": " +:+ py_repr (snd kv)) kvs)
          +:+ "}"
  end.

(** [str(v)] *)
Definition py_str (v : pyval) : string :=
  match v with
  | PStr s => s
  | _ => py_repr v
  end.

(** [d.get(key)] on a dict, [None] when the key is absent. *)
Fixpoint assoc_lookup {A : Type} (key : string) (kvs : list (string * A)) : option A :=
  match kvs with
  | [] => None
  | (k, v) :: rest => if String.eqb k key then Some v else assoc_lookup key rest
  end.

Definition dict_get (d : record) (key : string) : pyval :=
  default PNone (assoc_lookup key d).

(** Truthiness of an optional string, as in [if API_KEY:]. *)
Definition truthy (o : option string) : bool :=
  match o with
  | Some (String _ _) => true
  | _ => false
  end.

(** ** Worksheets, workbooks and mail messages *)

(** A cell of an openpyxl worksheet: its value and the two style attributes
    the script sets. *)
Record cell : Type := Cell {
  value : pyval;
  font_bold : bool;
  fill : option string
}.

Definition plain_cell (v : pyval) : cell := Cell v false None.

(** A worksheet is the sequence of rows appended to it, together with the
    column widths set on [ws.column_dimensions]. *)
Record worksheet : Type := Worksheet {
  title : string;
  rows : list (list cell);
  column_widths : gmap string Z
}.

(** A workbook: its sheets in order and the two timestamps of its document
    properties. *)
Record workbook : Type := Workbook {
  sheets : list worksheet;
  created : string;
  modified : string
}.

(** A MIME part carrying a file. *)
Record attachment : Type := Attachment {
  content_type : string;
  payload : string;
  transfer_encoding : string;
  content_disposition : string
}.

Record email : Type := Email {
  msg_from : option string;
  msg_to : option string;
  msg_subject : string;
  msg_body : string;
  msg_parts : list attachment
}.

(** ** The outside world *)

Abbreviation headers := (list (string * string)).

(** A [requests.Response]. *)
Record response : Type := Response {
  status_code : Z;
  reason : string;
  resp_url : string;
  json_body : exn + pyval     (* what [res.json()] does *)
}.

Inductive http_outcome : Type :=
| GetRaises (e : exn)          (* connection error, timeout, ... *)
| GetReturns (r : response).

(** How the SMTP server answers each command: [None] accepts it. *)
Record smtp_server : Type := SmtpServer {
  smtp_connect : option string -> Z -> option exn;
  smtp_starttls : option exn;
  smtp_login : option string -> option string -> option exn;
  smtp_send_message : email -> option exn;
  smtp_quit : option exn
}.

Record world : Type := World {
  environ : gmap string string;
  (** answer to the n-th request of the run *)
  http_get : nat -> string -> option headers -> http_outcome;
  smtp : smtp_server;
  (** the wall clock, read by tick *)
  clock : nat -> string;
  (** the bytes openpyxl writes for a workbook *)
  xlsx_bytes : workbook -> string;
  (** the Unicode tables of the interpreter *)
  unicode : unicode_db
}.

Inductive smtp_event : Type :=
| SmtpConnected (host : option string) (port : Z)
| SmtpStartedTLS
| SmtpLoggedIn (user pass : option string)
| SmtpSent (msg : email)
| SmtpQuit.

Record state : Type := State {
  fs : gmap string string;                      (* path -> file content *)
  stdout : list string;                         (* lines printed *)
  http_log : list (string * option headers);    (* requests issued *)
  smtp_log : list smtp_event;                   (* commands the server accepted *)
  ticks : nat                                   (* clock reads so far *)
}.

Definition set_fs (f : gmap string string -> gmap string string) (st : state) : state :=
  State (f (fs st)) (stdout st) (http_log st) (smtp_log st) (ticks st).
Definition set_stdout (f : list string -> list string) (st : state) : state :=
  State (fs st) (f (stdout st)) (http_log st) (smtp_log st) (ticks st).
Definition set_http_log
    (f : list (string * option headers) -> list (string * option headers))
    (st : state) : state :=
  State (fs st) (stdout st) (f (http_log st)) (smtp_log st) (ticks st).
Definition set_smtp_log (f : list smtp_event -> list smtp_event) (st : state) : state :=
  State (fs st) (stdout st) (http_log st) (f (smtp_log st)) (ticks st).
Definition set_ticks (f : nat -> nat) (st : state) : state :=
  State (fs st) (stdout st) (http_log st) (smtp_log st) (f (ticks st)).

(** ** The monad of the script: state and exceptions *)

Definition M (A : Type) : Type := state -> result A * state.

Definition ret {A} (a : A) : M A := fun st => (Ok a, st).

Definition bind {A B} (m : M A) (k : A -> M B) : M B :=
  fun st =>
    match m st with
    | (Ok a, st') => k a st'
    | (Raise e, st') => (Raise e, st')
    end.

Definition raise {A} (e : exn) : M A := fun st => (Raise e, st).

(** [try: body  except Exception as e: handler e].  What the body did to
    the state before raising stays done. *)
Definition try_except {A} (body : M A) (handler : exn -> M A) : M A :=
  fun st =>
    match body st with
    | (Ok a, st') => (Ok a, st')
    | (Raise e, st') => handler e st'
    end.

Definition lift {A} (r : result A) : M A := fun st => (r, st).

Definition get_state : M state := fun st => (Ok st, st).
Definition modify (f : state -> state) : M unit := fun st => (Ok tt, f st).

Declare Scope py_scope.
Delimit Scope py_scope with py.
Notation "x <- m ;; k" := (bind m (fun x => k))
  (at level 100, m at next level, right associativity) : py_scope.
Notation "m ;; k" := (bind m (fun _ => k))
  (at level 100, right associativity) : py_scope.
Open Scope py_scope.

(** The same for code that touches no state. *)
Definition rbind {A B} (r : result A) (k : A -> result B) : result B :=
  match r with
  | Ok a => k a
  | Raise e => Raise e
  end.

(** ** Primitives *)

Definition print (line : string) : M unit :=
  modify (set_stdout (fun out => (out ++ [line])%list)).

(** Reading the clock advances it. *)
Definition now (w : world) : M string :=
  st <- get_state ;;
  modify (set_ticks S) ;;
  ret (clock w (ticks st)).

(** [os.getenv(name)] and [os.getenv(name, dflt)] *)
Definition getenv (w : world) (name : string) : option string :=
  environ w !! name.
Definition getenv_default (w : world) (name dflt : string) : string :=
  default dflt (environ w !! name).

(** [os.path.exists(path)] *)
Definition path_exists (path : string) : M bool :=
  st <- get_state ;; ret (bool_decide (is_Some (fs st !! path))).

(** [os.path.getsize(path)], in bytes *)
Definition getsize (path : string) : M nat :=
  st <- get_state ;;
  match fs st !! path with
  | Some content => ret (String.length content)
  | None => raise (Exn OSError ("No such file or directory: " +:+ repr_str path))
  end.

(** [open(path, "rb").read()] *)
Definition read_file (path : string) : M string :=
  st <- get_state ;;
  match fs st !! path with
  | Some content => ret content
  | None => raise (Exn OSError ("No such file or directory: " +:+ repr_str path))
  end.

Definition write_file (path content : string) : M unit :=
  modify (set_fs (fun f => <[path := content]> f)).

Definition append_file (path text : string) : M unit :=
  modify (set_fs (fun f => <[path := default "" (f !! path) +:+ text]> f)).

(** [int(s)] *)
Definition py_int (db : unicode_db) (s : string) : result Z :=
  match int_literal db s with
  | Some n => Ok n
  | None => Raise (Exn ValueError ("invalid literal for int() with base 10: " +:+ repr_str s))
  end.

(** ** Logging setup *)

Definition LOG_FILE : string := "error.log".

(** [logging.basicConfig(filename=LOG_FILE, level=logging.ERROR, ...)]:
    the file handler opens the file for appending, which creates it. *)
Definition logging_basicConfig : M unit := append_file LOG_FILE "".

(** One line of the log, format ["%(asctime)s [%(levelname)s] %(message)s"]. *)
Definition log_record (asctime levelname message : string) : string :=
  asctime +:+ " [" +:+ levelname +:+ "] " +:+ message +:+ nl.

Definition logging_error (w : world) (message : string) : M unit :=
  asctime <- now w ;;
  append_file LOG_FILE (log_record asctime "ERROR" message).

Definition log_error (w : world) (context : string) (exc : exn) : M unit :=
  logging_error w (context +:+ ": " +:+ exn_str exc).

(** ** API helpers *)

(** [requests.get(url, headers=headers, timeout=20)] *)
Definition requests_get (w : world) (url : string) (hdrs : option headers) : M response :=
  st <- get_state ;;
  modify (set_http_log (fun l => (l ++ [(url, hdrs)])%list)) ;;
  match http_get w (length (http_log st)) url hdrs with
  | GetRaises e => raise e
  | GetReturns r => ret r
  end.

(** [res.raise_for_status()]: requests raises [HTTPError] for the client
    errors 400..499 and the server errors 500..599, and for no other
    status. *)
Definition raise_for_status (res : response) : result unit :=
  let code := status_code res in
  if (400 <=? code) && (code <? 500) then
    Raise (Exn HTTPError (pretty code +:+ " Client Error: " +:+ reason res
                            +:+ " for url: " +:+ resp_url res))
  else if (500 <=? code) && (code <? 600) then
    Raise (Exn HTTPError (pretty code +:+ " Server Error: " +:+ reason res
                            +:+ " for url: " +:+ resp_url res))
  else Ok tt.

(** [res.json()] *)
Definition response_json (res : response) : result pyval :=
  match json_body res with
  | inl e => Raise e
  | inr v => Ok v
  end.

Definition fetch_api_data (w : world) (url : string) (hdrs : option headers) : M pyval :=
  try_except
    (print ("Calling API: " +:+ url) ;;
     res <- requests_get w url hdrs ;;
     lift (raise_for_status res) ;;
     data <- lift (response_json res) ;;
     match data with
     | PDict _ => ret (PList [data])
     | _ => ret data
     end)
    (fun e =>
       log_error w ("API call failed for " +:+ url) e ;;
       print ("ERROR: API call failed for " +:+ url +:+ ", check " +:+ LOG_FILE) ;;
       ret (PList [])).

(** ** Excel helpers *)

Definition header_style (c : cell) : cell := Cell (value c) true (Some "FFC000").

(** [style_header(row)] *)
Definition style_header (row : list cell) : list cell := map header_style row.

(** [ws.append(values)] *)
Definition ws_append (ws : worksheet) (values : list pyval) : worksheet :=
  Worksheet (title ws) (rows ws ++ [map plain_cell values])%list (column_widths ws).

(** [style_header(ws[1])]: the cells of the first row are restyled in place. *)
Definition style_first_row (ws : worksheet) : worksheet :=
  match rows ws with
  | [] => ws
  | r :: rest => Worksheet (title ws) (style_header r :: rest) (column_widths ws)
  end.

(** [get_column_letter]: 1 is A, 26 is Z, 27 is AA. *)
Fixpoint column_letter_from (fuel n : nat) : string :=
  match fuel with
  | O => ""
  | S fuel' =>
      if (n =? 0)%nat then ""
      else column_letter_from fuel' ((n - 1) / 26)
             +:+ String (ascii_of_nat (65 + (n - 1) mod 26)) ""
  end.

Definition get_column_letter (n : nat) : string := column_letter_from n n.

Definition column_count (rs : list (list cell)) : nat :=
  fold_right Nat.max 0%nat (map (@length cell) rs).

(** The j-th of [ws.columns] (from 0): one cell per row, an empty one
    where a row is shorter. *)
Definition column (rs : list (list cell)) (j : nat) : list cell :=
  map (fun r => nth j r (plain_cell PNone)) rs.

(** The inner loop of [autosize_columns].  [str] does not fail on the
    values of this model, so the [except] branch is never taken. *)
Definition max_length (col : list cell) : nat :=
  fold_left
    (fun acc c =>
       let cell_len := str_len (py_str (value c)) in
       if (acc <? cell_len)%nat then cell_len else acc)
    col 0%nat.

Definition autosize_columns (ws : worksheet) : worksheet :=
  Worksheet (title ws) (rows ws)
    (fold_left
       (fun widths j =>
          <[get_column_letter (S j) := Z.of_nat (max_length (column (rows ws) j)) + 2]> widths)
       (seq 0 (column_count (rows ws)))
       (column_widths ws)).

Definition type_name (v : pyval) : string :=
  match v with
  | PNone => "NoneType"
  | PBool _ => "bool"
  | PInt _ => "int"
  | PFloat _ => "float"
  | PStr _ => "str"
  | PList _ => "list"
  | PDict _ => "dict"
  end.

(** What [for item in v] iterates over. *)
Definition py_iter (v : pyval) : result (list pyval) :=
  match v with
  | PList xs => Ok xs
  | PStr s => Ok (map PStr (code_points s))
  | PDict kvs => Ok (map (fun kv => PStr (fst kv)) kvs)
  | _ => Raise (Exn TypeError ("'" +:+ type_name v +:+ "' object is not iterable"))
  end.

(** [len(v)] *)
Definition py_len (v : pyval) : result nat :=
  match v with
  | PList xs => Ok (length xs)
  | PStr s => Ok (str_len s)
  | PDict kvs => Ok (length kvs)
  | _ => Raise (Exn TypeError ("object of type '" +:+ type_name v +:+ "' has no len()"))
  end.

(** [item.get(key)] *)
Definition py_get (item : pyval) (key : string) : result pyval :=
  match item with
  | PDict kvs => Ok (dict_get kvs key)
  | _ => Raise (Exn AttributeError
                  ("'" +:+ type_name item +:+ "' object has no attribute 'get'"))
  end.

Abbreviation field_mapping := (list (string * string)).

(** [for key in field_mapping.values(): row.append(item.get(key))] *)
Fixpoint build_row (item : pyval) (keys : list string) : result (list pyval) :=
  match keys with
  | [] => Ok []
  | key :: rest =>
      rbind (py_get item key) (fun v =>
      rbind (build_row item rest) (fun vs => Ok (v :: vs)))
  end.

(** [for item in data: ...; ws.append(row)] *)
Fixpoint write_rows (ws : worksheet) (items : list pyval) (keys : list string)
  : result worksheet :=
  match items with
  | [] => Ok ws
  | item :: rest =>
      rbind (build_row item keys) (fun row => write_rows (ws_append ws row) rest keys)
  end.

Definition write_sheet_from_json (ws : worksheet) (data : pyval) (mapping : field_mapping)
  : result worksheet :=
  let hdrs := map fst mapping in
  let ws := ws_append ws (map PStr hdrs) in
  let ws := style_first_row ws in
  rbind (py_iter data) (fun items =>
  rbind (write_rows ws items (map snd mapping)) (fun ws =>
  Ok (autosize_columns ws))).

(** [Workbook()]: one sheet, titled "Sheet", which is the active one. *)
Definition new_workbook (w : world) : M workbook :=
  t <- now w ;; ret (Workbook [Worksheet "Sheet" [] ∅] t t).

(** The sheet object at index [i] of the workbook. *)
Definition wb_sheet (i : nat) (wb : workbook) : worksheet :=
  default (Worksheet "Sheet" [] ∅) (sheets wb !! i).

(** [wb.active] *)
Definition wb_active (wb : workbook) : worksheet := wb_sheet 0 wb.

Definition set_title (t : string) (ws : worksheet) : worksheet :=
  Worksheet t (rows ws) (column_widths ws).

(** A worksheet is an object owned by its workbook: what is done to the
    sheet at index [i] is seen through the workbook. *)
Definition wb_put (i : nat) (ws : worksheet) (wb : workbook) : workbook :=
  Workbook (<[i := ws]> (sheets wb)) (created wb) (modified wb).

(** [wb.create_sheet(t)]: appended after the existing sheets. *)
Definition create_sheet (t : string) (wb : workbook) : workbook :=
  Workbook (sheets wb ++ [Worksheet t [] ∅])%list (created wb) (modified wb).

(** [wb.save(file_path)] *)
Definition wb_save (w : world) (wb : workbook) (file_path : string) : M unit :=
  t <- now w ;;
  write_file file_path (xlsx_bytes w (Workbook (sheets wb) (created wb) t)).

Definition user_mapping : field_mapping :=
  [("ID", "id"); ("Name", "name"); ("Username", "username"); ("Email", "email")].
Definition post_mapping : field_mapping :=
  [("ID", "id"); ("User ID", "userId"); ("Title", "title")].
Definition todo_mapping : field_mapping :=
  [("ID", "id"); ("User ID", "userId"); ("Title", "title"); ("Completed", "completed")].

Definition create_report_excel (w : world) (users posts todos : pyval) (file_path : string)
  : M string :=
  wb <- new_workbook w ;;
  (* Sheet 1: Users *)
  let ws_users := set_title "Users" (wb_active wb) in
  ws_users <- lift (write_sheet_from_json ws_users users user_mapping) ;;
  let wb := wb_put 0 ws_users wb in
  (* Sheet 2: Posts *)
  let wb := create_sheet "Posts" wb in
  ws_posts <- lift (write_sheet_from_json (wb_sheet 1 wb) posts post_mapping) ;;
  let wb := wb_put 1 ws_posts wb in
  (* Sheet 3: Todos *)
  let wb := create_sheet "Todos" wb in
  ws_todos <- lift (write_sheet_from_json (wb_sheet 2 wb) todos todo_mapping) ;;
  let wb := wb_put 2 ws_todos wb in
  wb_save w wb file_path ;;
  ret file_path.

(** ** Email helper *)

(** The loop over [attachments]: a path that does not exist is skipped,
    an existing file becomes an octet-stream part named after it. *)
Fixpoint attach_files (paths : list string) (parts : list attachment)
  : M (list attachment) :=
  match paths with
  | [] => ret parts
  | file_path :: rest =>
      found <- path_exists file_path ;;
      if negb found then attach_files rest parts
      else
        data <- read_file file_path ;;
        attach_files rest
          (parts ++ [Attachment "application/octet-stream" data "base64"
                       ("attachment; filename=" +:+ basename file_path)])%list
  end.

(** One command of the SMTP session. *)
Definition smtp_step (answer : option exn) (ev : smtp_event) : M unit :=
  match answer with
  | Some e => raise e
  | None => modify (set_smtp_log (fun l => (l ++ [ev])%list))
  end.

Definition send_email_with_attachments (w : world)
    (smtp_host : option string) (smtp_port : Z)
    (smtp_user smtp_pass to_email : option string)
    (subject body : string) (attachments : list string) : M unit :=
  parts <- attach_files attachments [] ;;
  let msg := Email smtp_user to_email subject body parts in
  try_except
    (smtp_step (smtp_connect (smtp w) smtp_host smtp_port)
               (SmtpConnected smtp_host smtp_port) ;;
     smtp_step (smtp_starttls (smtp w)) SmtpStartedTLS ;;
     smtp_step (smtp_login (smtp w) smtp_user smtp_pass)
               (SmtpLoggedIn smtp_user smtp_pass) ;;
     smtp_step (smtp_send_message (smtp w) msg) (SmtpSent msg) ;;
     smtp_step (smtp_quit (smtp w)) SmtpQuit ;;
     print "Email sent successfully!")
    (fun e =>
       log_error w "Email sending failed" e ;;
       print "ERROR: Email sending failed, check error.log").

(** ** Main flow *)

Definition warning_line : string :=
  "⚠ Some errors were logged during execution. Please check attached system logs on the server / CI artifacts.".

(** [os.path.exists(LOG_FILE) and os.path.getsize(LOG_FILE) > 0] *)
Definition log_has_errors : M bool :=
  found <- path_exists LOG_FILE ;;
  if found then size <- getsize LOG_FILE ;; ret (0 <? size)%nat
  else ret false.

(** Step 3: the lines of the email body. *)
Definition compose_body_lines (w : world) (users posts todos : pyval) : M (list string) :=
  n_users <- lift (py_len users) ;;
  n_posts <- lift (py_len posts) ;;
  n_todos <- lift (py_len todos) ;;
  let body_lines :=
    [ "Hello,";
      "";
      "Here is your automated multi-API report.";
      "";
      "Users records: " +:+ pretty n_users;
      "Posts records: " +:+ pretty n_posts;
      "Todos records: " +:+ pretty n_todos ] in
  errors <- log_has_errors ;;
  let body_lines :=
    if errors then (body_lines ++ [""; warning_line])%list else body_lines in
  utcnow <- now w ;;
  ret (body_lines ++ [""; "Generated at: " +:+ utcnow +:+ " UTC"; ""; "-- Automation Bot"])%list.

(** Step 4: the files to attach. *)
Definition choose_attachments (report_file : string) : M (list string) :=
  let attachments := [report_file] in
  errors <- log_has_errors ;;
  ret (if errors then (attachments ++ [LOG_FILE])%list else attachments).

Definition main (w : world) : M unit :=
  print "Starting multi-API report job..." ;;
  (* email config *)
  let SMTP_HOST := getenv w "SMTP_HOST" in
  SMTP_PORT <- lift (py_int (unicode w) (getenv_default w "SMTP_PORT" "587")) ;;
  let SMTP_USER := getenv w "SMTP_USER" in
  let SMTP_PASS := getenv w "SMTP_PASS" in
  let TO_EMAIL := getenv w "TO_EMAIL" in
  (* API URLs *)
  let API1_URL := getenv_default w "API1_URL" "https://jsonplaceholder.typicode.com/users" in
  let API2_URL := getenv_default w "API2_URL" "https://jsonplaceholder.typicode.com/posts" in
  let API3_URL := getenv_default w "API3_URL" "https://jsonplaceholder.typicode.com/todos" in
  let API_KEY := getenv w "API_KEY" in
  let hdrs : headers :=
    if truthy API_KEY then [("Authorization", "Bearer " +:+ default "" API_KEY)] else [] in
  (* Step 1 *)
  users <- fetch_api_data w API1_URL (Some hdrs) ;;
  posts <- fetch_api_data w API2_URL (Some hdrs) ;;
  todos <- fetch_api_data w API3_URL (Some hdrs) ;;
  (* Step 2 *)
  print "Creating Excel report..." ;;
  report_file <- create_report_excel w users posts todos "daily_report.xlsx" ;;
  (* Step 3 *)
  body_lines <- compose_body_lines w users posts todos ;;
  let email_body := join nl body_lines in
  (* Step 4 *)
  print "Sending email..." ;;
  attachments <- choose_attachments report_file ;;
  send_email_with_attachments w SMTP_HOST SMTP_PORT SMTP_USER SMTP_PASS TO_EMAIL
    "Daily Multi-API Report" email_body attachments ;;
  print "Job finished.".

(** The module as run by [python report_generator.py]: the logging setup
    at import time, then the main flow. *)
Definition script (w : world) : M unit :=
  logging_basicConfig ;; main w.

(** Exit status of the interpreter: 0 when the script ends, 1 when an
    exception reaches the top level. *)
Definition exit_code {A} (r : result A) : Z :=
  match r with
  | Ok _ => 0
  | Raise _ => 1
  end.

(** ** Vocabulary of the statements *)

(** The record appended to the log when [exc] is caught with [context],
    the clock showing [asctime]. *)
Definition error_entry (asctime context : string) (exc : exn) : string :=
  log_record asctime "ERROR" (context +:+ ": " +:+ exn_str exc).

(** The file system after one more entry in the log. *)
Definition with_entry (entry : string) (f : gmap string string) : gmap string string :=
  <[LOG_FILE := default "" (f !! LOG_FILE) +:+ entry]> f.

(** The three ways a fetch fails: [requests.get] raises (connection error,
    timeout), the status is a client or server error, or the body is not
    JSON. *)
Definition fetch_fails (w : world) (st : state) (url : string) (hdrs : option headers)
  : Prop :=
  match http_get w (length (http_log st)) url hdrs with
  | GetRaises _ => True
  | GetReturns r =>
      400 <= status_code r < 600 \/ exists e, json_body r = inl e
  end.

(** Tables with no entry: enough for ASCII configurations. *)
Definition ascii_only : unicode_db := UnicodeDb (fun _ => false) (fun _ => None).

(** A world whose servers answer every request with [r] and whose SMTP
    server accepts everything. *)
Definition friendly_smtp : smtp_server :=
  SmtpServer (fun _ _ => None) None (fun _ _ => None) (fun _ => None) None.

Definition world_answering (env : gmap string string) (r : string -> response) : world :=
  World env (fun _ url _ => GetReturns (r url)) friendly_smtp
        (fun n => "t" +:+ pretty n) (fun _ => "PK") ascii_only.

Definition empty_state : state := State ∅ [] [] [] 0.

Definition example_url : string := "https://example.org/users".

Definition ann : record :=
  [("id", PInt 1); ("name", PStr "Ann"); ("username", PStr "a"); ("email", PStr "a@x.com")].

(** What the handler of [fetch_api_data] leaves behind. *)
Definition after_fetch_error (w : world) (url : string) (hdrs : option headers)
    (e : exn) (st : state) : state :=
  State (with_entry (error_entry (clock w (ticks st)) ("API call failed for " +:+ url) e)
                    (fs st))
        (stdout st ++ ["Calling API: " +:+ url;
                       "ERROR: API call failed for " +:+ url +:+ ", check " +:+ LOG_FILE])%list
        (http_log st ++ [(url, hdrs)])%list
        (smtp_log st)
        (S (ticks st)).

Definition after_fetch_ok (url : string) (hdrs : option headers) (st : state) : state :=
  State (fs st) (stdout st ++ ["Calling API: " +:+ url])%list
        (http_log st ++ [(url, hdrs)])%list (smtp_log st) (ticks st).

(** Worlds for the examples. *)
Definition not_found (url : string) : response :=
  Response 404 "Not Found" url (inr (PDict [])).


Definition null_body (url : string) : response :=
  Response 200 "OK" url (inr PNone).

Definition one_user (url : string) : response :=
  Response 200 "OK" url (inr (PList [PDict ann])).


Definition values_of (ws : worksheet) : list (list pyval) :=
  map (map value) (rows ws).

(** The rows of a fresh sheet after [write_sheet_from_json] on a list of
    records. *)
Definition written_rows (mapping : field_mapping) (records : list record)
  : list (list cell) :=
  style_header (map plain_cell (map PStr (map fst mapping)))
  :: map (fun r => map plain_cell (map (dict_get r) (map snd mapping))) records.

(** The three sheets of the report, as a function of the three inputs. *)
Definition report_sheets (users posts todos : pyval) : result (list worksheet) :=
  rbind (write_sheet_from_json (Worksheet "Users" [] ∅) users user_mapping) (fun ws_users =>
  rbind (write_sheet_from_json (Worksheet "Posts" [] ∅) posts post_mapping) (fun ws_posts =>
  rbind (write_sheet_from_json (Worksheet "Todos" [] ∅) todos todo_mapping) (fun ws_todos =>
  Ok [ws_users; ws_posts; ws_todos]))).

Definition after_report (w : world) (path : string) (shs : list worksheet) (st : state)
  : state :=
  State (<[path := xlsx_bytes w (Workbook shs (clock w (ticks st)) (clock w (S (ticks st))))]>
           (fs st))
        (stdout st) (http_log st) (smtp_log st) (S (S (ticks st))).

(** The MIME parts made from the files of [paths] that exist. *)
Fixpoint file_parts (f : gmap string string) (paths : list string) : list attachment :=
  match paths with
  | [] => []
  | path :: rest =>
      match f !! path with
      | Some content =>
          Attachment "application/octet-stream" content "base64"
                     ("attachment; filename=" +:+ basename path)
          :: file_parts f rest
      | None => file_parts f rest
      end
  end.

(** The paths of [paths] that exist, in order. *)
Definition existing (f : gmap string string) (paths : list string) : list string :=
  List.filter (fun path => bool_decide (is_Some (f !! path))) paths.

(** The first command of the session that the server refuses, if any. *)
Definition smtp_failure (srv : smtp_server) (host : option string) (port : Z)
    (user pass : option string) (msg : email) : option exn :=
  match smtp_connect srv host port with
  | Some e => Some e
  | None =>
      match smtp_starttls srv with
      | Some e => Some e
      | None =>
          match smtp_login srv user pass with
          | Some e => Some e
          | None =>
              match smtp_send_message srv msg with
              | Some e => Some e
              | None => smtp_quit srv
              end
          end
      end
  end.

(** The commands of an accepted session. *)
Definition session_events (host : option string) (port : Z) (user pass : option string)
    (msg : email) : list smtp_event :=
  [SmtpConnected host port; SmtpStartedTLS; SmtpLoggedIn user pass; SmtpSent msg; SmtpQuit].

(** The log file exists and is not empty. *)
Definition log_nonempty (f : gmap string string) : Prop :=
  exists content, f !! LOG_FILE = Some content /\ content <> "".

Definition log_nonemptyb (f : gmap string string) : bool :=
  match f !! LOG_FILE with
  | Some content => (0 <? String.length content)%nat
  | None => false
  end.

(** A server that is down, and a world whose mail goes there. *)
Definition refusing_smtp : smtp_server :=
  SmtpServer (fun _ _ => Some (Exn OSError "Connection refused"))
             None (fun _ _ => None) (fun _ => None) None.

Definition world_with_smtp (srv : smtp_server) : world :=
  World ∅ (fun _ url _ => GetReturns (one_user url)) srv
        (fun n => "t" +:+ pretty n) (fun _ => "PK") ascii_only.

Definition report_on_disk : state :=
  State {["daily_report.xlsx" := "PK"]} [] [] [] 0.

Definition report_and_log_on_disk : state :=
  State (<[LOG_FILE := "t0 [ERROR] API call failed for u: boom" +:+ nl]>
           {["daily_report.xlsx" := "PK"]}) [] [] [] 0.

(** The body lines for given record counts, log condition and time. *)
Definition body_lines_of (n_users n_posts n_todos : nat) (errors : bool) (utcnow : string)
  : list string :=
  ([ "Hello,";
     "";
     "Here is your automated multi-API report.";
     "";
     "Users records: " +:+ pretty n_users;
     "Posts records: " +:+ pretty n_posts;
     "Todos records: " +:+ pretty n_todos ]
   ++ (if errors then [""; warning_line] else [])
   ++ [""; "Generated at: " +:+ utcnow +:+ " UTC"; ""; "-- Automation Bot"])%list.

(** The part that carries the log. *)
Definition is_log_part (part : attachment) : Prop :=
  content_disposition part = "attachment; filename=" +:+ LOG_FILE.

(** A parsed body is a JSON object or an array of JSON objects. *)
Definition is_records (v : pyval) : Prop :=
  (exists kvs, v = PDict kvs) \/ (exists recs : list record, v = PList (map PDict recs)).

(** Every response that passes [raise_for_status] and parses carries
    records. *)
Definition bodies_are_records (w : world) : Prop :=
  forall n url hdrs r v,
    http_get w n url hdrs = GetReturns r ->
    raise_for_status r = Ok tt ->
    json_body r = inr v ->
    is_records v.

(** The run does not change the list of requests issued. *)
Definition keeps_http_log {A} (m : M A) : Prop :=
  forall st, http_log (snd (m st)) = http_log st.

(** The three source URLs of a world. *)
Definition api_urls (w : world) : list string :=
  [ getenv_default w "API1_URL" "https://jsonplaceholder.typicode.com/users";
    getenv_default w "API2_URL" "https://jsonplaceholder.typicode.com/posts";
    getenv_default w "API3_URL" "https://jsonplaceholder.typicode.com/todos" ].

(** The requests issued by a run that started in [st] and ended in [st']. *)
Definition requests_of (st st' : state) : list (string * option headers) :=
  drop (length (http_log st)) (http_log st').

(** A world in which the first source times out, the second answers 404,
    the third answers one user, and the SMTP server is down. *)
Definition troubled_world : world :=
  World ∅
    (fun n url _ =>
       match n with
       | O => GetRaises (Exn RequestException "Read timed out. (read timeout=20)")
       | S O => GetReturns (not_found url)
       | _ => GetReturns (one_user url)
       end)
    refusing_smtp (fun n => "t" +:+ pretty n) (fun _ => "PK") ascii_only.

(** The headers that the main flow passes to every fetch. *)
Definition request_headers (w : world) : headers :=
  if truthy (getenv w "API_KEY")
  then [("Authorization", "Bearer " +:+ default "" (getenv w "API_KEY"))]
  else [].

(** The state in which the main flow starts: the log file is there. *)
Definition after_logging_setup (st : state) : state :=
  set_fs (fun f => <[LOG_FILE := default "" (f !! LOG_FILE) +:+ ""]> f) st.

Definition started (st : state) : state :=
  set_stdout (fun out => (out ++ ["Starting multi-API report job..."])%list)
             (after_logging_setup st).

(** Worlds that differ in their configuration only. *)
Definition world_with_env (env : gmap string string) : world :=
  world_answering env one_user.

(** ** Vocabulary of the further properties *)

Definition is_dict (v : pyval) : bool :=
  match v with
  | PDict _ => true
  | _ => false
  end.

(** A value the sheet writer can loop over with a non-empty mapping:
    iterable, every item a dict. *)
Definition record_iterable (v : pyval) : Prop :=
  exists items, py_iter v = Ok items /\ forallb is_dict items = true.


Definition unstyled (c : cell) : Prop :=
  font_bold c = false /\ fill c = None.

(** The number of a column letter: A is 1, Z is 26, AA is 27. *)
Definition letter_value (c : ascii) : nat := (nat_of_ascii c - 64)%nat.

Fixpoint column_index_from (acc : nat) (s : string) : nat :=
  match s with
  | EmptyString => acc
  | String c rest => column_index_from (acc * 26 + letter_value c)%nat rest
  end.

Definition column_index (s : string) : nat := column_index_from 0 s.

(** A sheet with a long name in the second column. *)
Definition two_by_two : worksheet :=
  Worksheet "Users"
    [ [plain_cell (PStr "ID"); plain_cell (PStr "Name")];
      [plain_cell (PInt 1); plain_cell (PStr "Leanne Graham")] ] ∅.

(** The two writes of a run: one more entry in the log, or the report
    saved under its default name. *)
Definition script_write (f f' : gmap string string) : Prop :=
  (exists entry, f' = with_entry entry f) \/
  (exists bytes, f' = <["daily_report.xlsx" := bytes]> f).

(** A step whose effect on the files is a sequence of such writes. *)
Definition writes_only {A} (m : M A) : Prop :=
  forall st, rtc script_write (fs st) (fs (snd (m st))).

(** A server that accepts the message and then refuses to say goodbye. *)
Definition quit_refusing_smtp : smtp_server :=
  SmtpServer (fun _ _ => None) None (fun _ _ => None) (fun _ => None)
             (Some (Exn SMTPException "Connection unexpectedly closed")).

(** A state with a file that is none of the script's business. *)
Definition notes_on_disk : state :=
  State {["notes.txt" := "keep me"]} [] [] [] 0.

(** * Properties *)

(** ** The model at work *)

Example int_literal_examples :
  int_literal ascii_only "587" = Some 587 /\
  int_literal ascii_only " 5_87 " = Some 587 /\
  int_literal ascii_only "-12" = Some (-12) /\
  int_literal ascii_only "" = None /\
  int_literal ascii_only "abc" = None /\
  int_literal ascii_only "58 7" = None /\
  int_literal ascii_only "1__2" = None.
Proof. repeat split; reflexivity. Qed.

Example raise_for_status_examples :
  raise_for_status (Response 200 "OK" "u" (inr PNone)) = Ok tt /\
  raise_for_status (Response 304 "Not Modified" "u" (inr PNone)) = Ok tt /\
  raise_for_status (Response 404 "Not Found" "u" (inr PNone))
    = Raise (Exn HTTPError "404 Client Error: Not Found for url: u") /\
  raise_for_status (Response 503 "Service Unavailable" "u" (inr PNone))
    = Raise (Exn HTTPError "503 Server Error: Service Unavailable for url: u").
Proof. repeat split; vm_compute; reflexivity. Qed.

Example string_examples :
  basename "out/daily_report.xlsx" = "daily_report.xlsx" /\
  basename "error.log" = "error.log" /\
  get_column_letter 1 = "A" /\ get_column_letter 26 = "Z" /\
  get_column_letter 27 = "AA" /\
  py_str (PInt (-3)) = "-3" /\ py_str PNone = "None" /\ py_str (PStr "Ann") = "Ann" /\
  py_repr (PList [PStr "a"; PBool true]) = "['a', True]".
Proof. repeat split; vm_compute; reflexivity. Qed.

(** One user, no post, no todo: three sheets; Users has the header and one
    row, Posts and Todos have the header only. *)
Example report_for_one_user :
  exists ws_users ws_posts ws_todos,
    report_sheets (PList [PDict ann]) (PList []) (PList [])
      = Ok [ws_users; ws_posts; ws_todos] /\
    values_of ws_users =
      [ [PStr "ID"; PStr "Name"; PStr "Username"; PStr "Email"];
        [PInt 1; PStr "Ann"; PStr "a"; PStr "a@x.com"] ] /\
    values_of ws_posts = [ [PStr "ID"; PStr "User ID"; PStr "Title"] ] /\
    values_of ws_todos = [ [PStr "ID"; PStr "User ID"; PStr "Title"; PStr "Completed"] ] /\
    column_widths ws_users = {[ "A" := 4; "B" := 6; "C" := 10; "D" := 9 ]}.
Proof.
  eexists _, _, _. split; [vm_compute; reflexivity |].
  repeat split; vm_compute; reflexivity.
Qed.

(** A record without the mapped key gives an empty cell. *)
Example missing_field_is_blank :
  rbind (write_sheet_from_json (Worksheet "Posts" [] ∅)
           (PList [PDict [("id", PInt 7); ("title", PStr "t")]]) post_mapping)
        (fun ws => Ok (values_of ws))
  = Ok [ [PStr "ID"; PStr "User ID"; PStr "Title"]; [PInt 7; PNone; PStr "t"] ].
Proof. vm_compute. reflexivity. Qed.

(** ** Running the monad *)

Lemma run_bind {A B} (m : M A) (k : A -> M B) st :
  bind m k st =
  match m st with
  | (Ok a, st') => k a st'
  | (Raise e, st') => (Raise e, st')
  end.
Proof. reflexivity. Qed.

Lemma bind_print {B} line (k : unit -> M B) st :
  bind (print line) k st = k tt (set_stdout (fun out => (out ++ [line])%list) st).
Proof. reflexivity. Qed.

Lemma bind_lift {A B} (r : result A) (k : A -> M B) st :
  bind (lift r) k st =
  match r with
  | Ok a => k a st
  | Raise e => (Raise e, st)
  end.
Proof. destruct r; reflexivity. Qed.

Lemma raise_for_status_ok r :
  ~ 400 <= status_code r < 600 -> raise_for_status r = Ok tt.
Proof.
  intros H. unfold raise_for_status.
  destruct (400 <=? status_code r) eqn:E1, (status_code r <? 500) eqn:E2,
           (500 <=? status_code r) eqn:E3, (status_code r <? 600) eqn:E4;
    simpl; try reflexivity; exfalso; apply H; lia.
Qed.

Lemma raise_for_status_error r :
  400 <= status_code r < 600 -> exists e, raise_for_status r = Raise e.
Proof.
  intros H. unfold raise_for_status.
  destruct (400 <=? status_code r) eqn:E1, (status_code r <? 500) eqn:E2,
           (500 <=? status_code r) eqn:E3, (status_code r <? 600) eqn:E4;
    simpl; eauto; lia.
Qed.

(** [fetch_api_data] in closed form. *)
Lemma fetch_api_data_run w url hdrs st :
  fetch_api_data w url hdrs st =
  match http_get w (length (http_log st)) url hdrs with
  | GetRaises e => (Ok (PList []), after_fetch_error w url hdrs e st)
  | GetReturns r =>
      match raise_for_status r with
      | Raise e => (Ok (PList []), after_fetch_error w url hdrs e st)
      | Ok _ =>
          match json_body r with
          | inl e => (Ok (PList []), after_fetch_error w url hdrs e st)
          | inr (PDict kvs) => (Ok (PList [PDict kvs]), after_fetch_ok url hdrs st)
          | inr data => (Ok data, after_fetch_ok url hdrs st)
          end
      end
  end.
Proof.
  destruct st as [f out hl sl t].
  unfold fetch_api_data, try_except, requests_get, response_json, log_error,
    logging_error, now, append_file, print, modify, get_state, lift, ret, raise, bind.
  simpl.
  destruct (http_get w (length hl) url hdrs) as [e | r]; simpl.
  - unfold after_fetch_error, set_stdout, set_fs, set_ticks; simpl.
    rewrite <- app_assoc. reflexivity.
  - destruct (raise_for_status r) as [[] | e]; simpl.
    + destruct (json_body r) as [e | data]; simpl.
      * unfold after_fetch_error, set_stdout, set_fs, set_ticks; simpl.
        rewrite <- app_assoc. reflexivity.
      * destruct data; reflexivity.
    + unfold after_fetch_error, set_stdout, set_fs, set_ticks; simpl.
      rewrite <- app_assoc. reflexivity.
Qed.

(** ** C1: failed fetches *)




(** ** C2: successful fetches *)

Lemma fetch_object_is_wrapped w url hdrs st r kvs :
  http_get w (length (http_log st)) url hdrs = GetReturns r ->
  ~ 400 <= status_code r < 600 ->
  json_body r = inr (PDict kvs) ->
  fst (fetch_api_data w url hdrs st) = Ok (PList [PDict kvs]).
Proof.
  intros Hg Hs Hj. rewrite fetch_api_data_run, Hg, (raise_for_status_ok r Hs), Hj.
  reflexivity.
Qed.

Lemma fetch_array_is_returned w url hdrs st r xs :
  http_get w (length (http_log st)) url hdrs = GetReturns r ->
  ~ 400 <= status_code r < 600 ->
  json_body r = inr (PList xs) ->
  fst (fetch_api_data w url hdrs st) = Ok (PList xs).
Proof.
  intros Hg Hs Hj. rewrite fetch_api_data_run, Hg, (raise_for_status_ok r Hs), Hj.
  reflexivity.
Qed.

(** C2 at a failing input.  A 200 response whose body is the JSON value
    [null] parses; [fetch_api_data] returns [None], which is no list, and
    the first loop over it in the report builder raises [TypeError], which
    nothing catches. *)
Lemma fetch_null_body_is_not_a_list :
  let w := world_answering ∅ null_body in
  fst (fetch_api_data w example_url None empty_state) = Ok PNone /\
  write_sheet_from_json (Worksheet "Users" [] ∅) PNone user_mapping
    = Raise (Exn TypeError "'NoneType' object is not iterable") /\
  fst (script w empty_state) = Raise (Exn TypeError "'NoneType' object is not iterable").
Proof.
  repeat split; vm_compute; reflexivity.
Qed.

(** ** C3: the sheet writer *)


Lemma build_row_record (r : record) (keys : list string) :
  build_row (PDict r) keys = Ok (map (dict_get r) keys).
Proof.
  induction keys as [| key keys IH]; simpl; [reflexivity |].
  rewrite IH. reflexivity.
Qed.

Lemma write_rows_records (ws : worksheet) (records : list record) (keys : list string) :
  write_rows ws (map PDict records) keys =
  Ok (Worksheet (title ws)
        (rows ws ++ map (fun r => map plain_cell (map (dict_get r) keys)) records)%list
        (column_widths ws)).
Proof.
  revert ws. induction records as [| r records IH]; intros ws; simpl.
  - rewrite app_nil_r. destruct ws; reflexivity.
  - rewrite build_row_record. simpl. rewrite IH. simpl.
    rewrite <- app_assoc. reflexivity.
Qed.

Lemma write_sheet_records t cw (records : list record) (mapping : field_mapping) :
  write_sheet_from_json (Worksheet t [] cw) (PList (map PDict records)) mapping =
  Ok (autosize_columns (Worksheet t (written_rows mapping records) cw)).
Proof.
  unfold write_sheet_from_json, ws_append, style_first_row. simpl.
  rewrite write_rows_records. reflexivity.
Qed.




(** ** C4 and C9: the report builder *)

Lemma create_report_excel_run w users posts todos path st :
  create_report_excel w users posts todos path st =
  match report_sheets users posts todos with
  | Ok shs => (Ok path, after_report w path shs st)
  | Raise e => (Raise e, set_ticks S st)
  end.
Proof.
  destruct st as [f out hl sl t].
  unfold create_report_excel, report_sheets, new_workbook, wb_save, write_file, now,
    modify, get_state, lift, ret, raise, bind.
  simpl.
  destruct (write_sheet_from_json _ users user_mapping) as [u | e]; simpl; [| reflexivity].
  destruct (write_sheet_from_json _ posts post_mapping) as [p | e]; simpl; [| reflexivity].
  destruct (write_sheet_from_json _ todos todo_mapping) as [d | e]; simpl; reflexivity.
Qed.

Lemma report_sheets_records (users posts todos : list record) :
  report_sheets (PList (map PDict users)) (PList (map PDict posts))
                (PList (map PDict todos)) =
  Ok [autosize_columns (Worksheet "Users" (written_rows user_mapping users) ∅);
      autosize_columns (Worksheet "Posts" (written_rows post_mapping posts) ∅);
      autosize_columns (Worksheet "Todos" (written_rows todo_mapping todos) ∅)].
Proof.
  unfold report_sheets. rewrite !write_sheet_records. reflexivity.
Qed.



(** ** C6: attachments *)

Lemma attach_files_run paths parts st :
  attach_files paths parts st = (Ok (parts ++ file_parts (fs st) paths)%list, st).
Proof.
  revert parts. induction paths as [| p paths IH]; intros parts.
  - simpl. unfold ret. rewrite app_nil_r. reflexivity.
  - cbn [attach_files file_parts].
    unfold bind at 1, path_exists. unfold bind at 1, get_state, ret. cbn [fst snd].
    destruct (fs st !! p) as [content |] eqn:E.
    + rewrite bool_decide_eq_true_2 by eauto. cbn [negb].
      unfold bind at 1, read_file. unfold bind at 1, get_state, ret.
      rewrite E. rewrite IH. rewrite <- app_assoc. reflexivity.
    + rewrite bool_decide_eq_false_2 by (intros [? ?]; congruence). cbn [negb].
      apply IH.
Qed.

Lemma file_parts_existing f paths :
  file_parts f (existing f paths) = file_parts f paths.
Proof.
  unfold existing. induction paths as [| p paths IH]; [reflexivity |].
  cbn [List.filter file_parts]. destruct (f !! p) as [content |] eqn:E.
  - rewrite bool_decide_eq_true_2 by eauto. cbn [file_parts].
    rewrite E, IH. reflexivity.
  - rewrite bool_decide_eq_false_2 by (intros [? ?]; congruence). apply IH.
Qed.

Lemma file_parts_dispositions f paths :
  map content_disposition (file_parts f (existing f paths)) =
  map (fun path => "attachment; filename=" +:+ basename path) (existing f paths).
Proof.
  unfold existing. induction paths as [| p paths IH]; [reflexivity |].
  cbn [List.filter]. destruct (f !! p) as [content |] eqn:E.
  - rewrite bool_decide_eq_true_2 by eauto. cbn [file_parts map].
    rewrite E. cbn [map content_disposition]. rewrite IH. reflexivity.
  - rewrite bool_decide_eq_false_2 by (intros [? ?]; congruence). apply IH.
Qed.

(** [send_email_with_attachments] never raises; a refused command leaves
    one entry in the log, an accepted session leaves the log alone. *)
Lemma send_email_run w host port user pass to subject body atts st :
  let msg := Email user to subject body (file_parts (fs st) atts) in
  exists st',
    send_email_with_attachments w host port user pass to subject body atts st
      = (Ok tt, st') /\
    match smtp_failure (smtp w) host port user pass msg with
    | Some e =>
        fs st' = with_entry (error_entry (clock w (ticks st)) "Email sending failed" e) (fs st)
    | None =>
        fs st' = fs st /\
        smtp_log st' = (smtp_log st ++ session_events host port user pass msg)%list
    end.
Proof.
  intros msg. unfold send_email_with_attachments.
  unfold bind at 1. rewrite attach_files_run. simpl app. fold msg.
  destruct st as [f out hl sl t].
  unfold smtp_failure, try_except, smtp_step, log_error, logging_error, now, append_file,
    print, modify, get_state, lift, ret, raise, bind. simpl.
  destruct (smtp_connect (smtp w) host port) as [e |]; simpl;
    [eexists; split; reflexivity |].
  destruct (smtp_starttls (smtp w)) as [e |]; simpl;
    [eexists; split; reflexivity |].
  destruct (smtp_login (smtp w) user pass) as [e |]; simpl;
    [eexists; split; reflexivity |].
  destruct (smtp_send_message (smtp w) msg) as [e |]; simpl;
    [eexists; split; reflexivity |].
  destruct (smtp_quit (smtp w)) as [e |]; simpl;
    [eexists; split; reflexivity |].
  eexists; split; [reflexivity |]. simpl. split; [reflexivity |].
  rewrite <- !app_assoc. reflexivity.
Qed.

Lemma send_email_existing w host port user pass to subject body atts st :
  send_email_with_attachments w host port user pass to subject body atts st =
  send_email_with_attachments w host port user pass to subject body
    (existing (fs st) atts) st.
Proof.
  unfold send_email_with_attachments.
  rewrite (run_bind (attach_files atts [])),
          (run_bind (attach_files (existing (fs st) atts) [])).
  rewrite !attach_files_run. cbn [app]. rewrite file_parts_existing. reflexivity.
Qed.

(** C6.  Paths of the attachment list that do not exist are left out and
    change nothing else: the message is built with one part per existing
    path, in order; the call behaves exactly as if the missing paths had
    not been listed, so nothing is raised and nothing is logged for them;
    and when the server accepts the session the message is sent with the
    remaining attachments and the log is untouched. *)
Theorem missing_attachments_are_skipped
    w host port user pass to subject body (atts : list string) st :
  let present := existing (fs st) atts in
  let msg := Email user to subject body (file_parts (fs st) present) in
  (forall path, In path present <-> In path atts /\ is_Some (fs st !! path)) /\
  attach_files atts [] st = (Ok (file_parts (fs st) present), st) /\
  map content_disposition (file_parts (fs st) present) =
    map (fun path => "attachment; filename=" +:+ basename path) present /\
  send_email_with_attachments w host port user pass to subject body atts st =
    send_email_with_attachments w host port user pass to subject body present st /\
  exists st',
    send_email_with_attachments w host port user pass to subject body atts st
      = (Ok tt, st') /\
    (smtp_failure (smtp w) host port user pass msg = None ->
     fs st' = fs st /\ In (SmtpSent msg) (smtp_log st')).
Proof.
  intros present msg. split; [| split; [| split; [| split]]].
  - intros path. unfold present, existing. rewrite filter_In, bool_decide_eq_true.
    reflexivity.
  - rewrite attach_files_run. unfold present. rewrite file_parts_existing. reflexivity.
  - apply file_parts_dispositions.
  - apply send_email_existing.
  - destruct (send_email_run w host port user pass to subject body atts st)
      as (st' & Hrun & Hst).
    exists st'. split; [exact Hrun |]. intros Hok.
    unfold msg, present in Hok. rewrite file_parts_existing in Hok.
    rewrite Hok in Hst. destruct Hst as [Hfs Hlog]. split; [exact Hfs |].
    rewrite Hlog. apply in_or_app. right. unfold msg, present.
    rewrite file_parts_existing. simpl. auto.
Qed.

Lemma missing_attachments_witness :
  let atts := ["daily_report.xlsx"; "error.log"] in
  let msg := Email None None "s" "b"
               [Attachment "application/octet-stream" "PK" "base64"
                           "attachment; filename=daily_report.xlsx"] in
  exists st',
    send_email_with_attachments (world_with_smtp friendly_smtp) None 587 None None None
      "s" "b" atts report_on_disk = (Ok tt, st') /\
    fs st' = fs report_on_disk /\ In (SmtpSent msg) (smtp_log st').
Proof.
  intros atts msg.
  destruct (missing_attachments_are_skipped (world_with_smtp friendly_smtp)
              None 587 None None None "s" "b" atts report_on_disk)
    as (_ & _ & _ & _ & st' & Hrun & Hsent).
  exists st'. split; [exact Hrun |]. apply Hsent. reflexivity.
Defined.

(** ** C5: the warning line and the log attachment *)

Lemma log_nonemptyb_spec f : log_nonemptyb f = true <-> log_nonempty f.
Proof.
  unfold log_nonemptyb, log_nonempty. destruct (f !! LOG_FILE) as [content |].
  - destruct content as [| c content]; simpl; split.
    + discriminate.
    + intros (? & [= <-] & H). congruence.
    + intros _. eexists. split; [reflexivity | discriminate].
    + reflexivity.
  - split; [discriminate | intros (? & [=] & _)].
Qed.

Lemma log_has_errors_run st : log_has_errors st = (Ok (log_nonemptyb (fs st)), st).
Proof.
  unfold log_has_errors, log_nonemptyb, path_exists, getsize, get_state, ret, bind.
  destruct (fs st !! LOG_FILE) as [content |] eqn:E.
  - rewrite bool_decide_eq_true_2 by eauto. rewrite E. reflexivity.
  - rewrite bool_decide_eq_false_2 by (intros [? ?]; congruence). reflexivity.
Qed.

Lemma compose_body_lines_run w users posts todos st :
  compose_body_lines w users posts todos st =
  match py_len users with
  | Raise e => (Raise e, st)
  | Ok n_users =>
      match py_len posts with
      | Raise e => (Raise e, st)
      | Ok n_posts =>
          match py_len todos with
          | Raise e => (Raise e, st)
          | Ok n_todos =>
              (Ok (body_lines_of n_users n_posts n_todos (log_nonemptyb (fs st))
                                 (clock w (ticks st))),
               set_ticks S st)
          end
      end
  end.
Proof.
  unfold compose_body_lines.
  rewrite run_bind. unfold lift at 1. destruct (py_len users) as [nu | e]; [| reflexivity].
  rewrite run_bind. unfold lift at 1. destruct (py_len posts) as [np | e]; [| reflexivity].
  rewrite run_bind. unfold lift at 1. destruct (py_len todos) as [nt | e]; [| reflexivity].
  rewrite run_bind, log_has_errors_run.
  unfold now, modify, get_state, ret, bind, body_lines_of.
  destruct (log_nonemptyb (fs st)); reflexivity.
Qed.

Lemma choose_attachments_run report_file st :
  choose_attachments report_file st =
  (Ok (if log_nonemptyb (fs st) then [report_file; LOG_FILE] else [report_file]), st).
Proof.
  unfold choose_attachments. rewrite run_bind, log_has_errors_run.
  destruct (log_nonemptyb (fs st)); reflexivity.
Qed.

Lemma warning_line_in_body n_users n_posts n_todos errors utcnow :
  In warning_line (body_lines_of n_users n_posts n_todos errors utcnow) <-> errors = true.
Proof.
  unfold body_lines_of. split.
  - intros H. destruct errors; [reflexivity |]. exfalso.
    simpl in H. unfold warning_line in H.
    repeat (destruct H as [H | H]; [discriminate H |]). exact H.
  - intros ->. simpl. do 8 right. left. reflexivity.
Qed.

(** C5.  Take the state in which Step 3 starts and follow the main flow
    up to the point where the message is complete: the body lines of
    Step 3, the line printed by Step 4, the list of attachments of Step 4,
    the parts made from it.  If these steps run to their end, the file
    system is still the one Step 3 started with, and each of the following
    holds exactly when the log file exists and is not empty in it: the body
    has the warning line; the log is in the list of attachments; the
    message has a part carrying the log. *)
Theorem warning_and_log_attachment_iff_log_nonempty
    w users posts todos st lines st1 atts st2 parts st3 :
  compose_body_lines w users posts todos st = (Ok lines, st1) ->
  (print "Sending email..." ;; choose_attachments "daily_report.xlsx") st1
    = (Ok atts, st2) ->
  attach_files atts [] st2 = (Ok parts, st3) ->
  fs st3 = fs st /\
  (In warning_line lines <-> log_nonempty (fs st)) /\
  (In LOG_FILE atts <-> log_nonempty (fs st)) /\
  ((exists part, In part parts /\ is_log_part part) <-> log_nonempty (fs st)).
Proof.
  rewrite compose_body_lines_run, bind_print, choose_attachments_run, attach_files_run.
  destruct (py_len users) as [nu | e]; [| discriminate].
  destruct (py_len posts) as [np | e]; [| discriminate].
  destruct (py_len todos) as [nt | e]; [| discriminate].
  intros [= <- <-] [= <- <-] [= <- <-]. cbn [set_ticks fs app].
  rewrite <- log_nonemptyb_spec.
  split; [reflexivity |]. split; [apply warning_line_in_body |].
  destruct (log_nonemptyb (fs st)) eqn:E.
  - split; [split; [reflexivity | intros _; simpl; auto] |].
    split; [reflexivity |]. intros _.
    unfold log_nonemptyb in E. destruct (fs st !! LOG_FILE) as [content |] eqn:El;
      [| discriminate].
    cbn [file_parts]. rewrite El.
    destruct (fs st !! "daily_report.xlsx"); eexists.
    + split; [right; left; reflexivity | reflexivity].
    + split; [left; reflexivity | reflexivity].
  - split; [split; [| discriminate] |].
    + intros [H | []]. discriminate H.
    + split; [| discriminate]. intros (part & Hin & Hlog). exfalso.
      cbn [file_parts] in Hin. destruct (fs st !! "daily_report.xlsx");
        [| destruct Hin].
      destruct Hin as [<- | []]. unfold is_log_part in Hlog. discriminate Hlog.
Qed.

Lemma warning_and_log_attachment_witness :
  fs (set_ticks S report_and_log_on_disk) = fs report_and_log_on_disk /\
  (In warning_line (body_lines_of 1 0 0 true "t0")
   <-> log_nonempty (fs report_and_log_on_disk)) /\
  (In LOG_FILE ["daily_report.xlsx"; LOG_FILE] <-> log_nonempty (fs report_and_log_on_disk)) /\
  ((exists part,
       In part (file_parts (fs report_and_log_on_disk) ["daily_report.xlsx"; LOG_FILE])
       /\ is_log_part part)
   <-> log_nonempty (fs report_and_log_on_disk)).
Proof.
  apply (warning_and_log_attachment_iff_log_nonempty
           (world_with_smtp friendly_smtp) (PList [PDict ann]) (PList []) (PList [])
           report_and_log_on_disk
           (body_lines_of 1 0 0 true "t0") (set_ticks S report_and_log_on_disk)
           ["daily_report.xlsx"; LOG_FILE]
           (set_stdout (fun out => (out ++ ["Sending email..."])%list)
                       (set_ticks S report_and_log_on_disk))
           (file_parts (fs report_and_log_on_disk) ["daily_report.xlsx"; LOG_FILE])
           (set_stdout (fun out => (out ++ ["Sending email..."])%list)
                       (set_ticks S report_and_log_on_disk)));
    vm_compute; reflexivity.
Defined.


(** ** The main flow *)

Lemma script_run w st : script w st = main w (after_logging_setup st).
Proof. reflexivity. Qed.

Lemma keeps_bind {A B} (m : M A) (k : A -> M B) :
  keeps_http_log m -> (forall a, keeps_http_log (k a)) -> keeps_http_log (bind m k).
Proof.
  intros Hm Hk st. rewrite run_bind. specialize (Hm st).
  destruct (m st) as [[a | e] st1]; simpl in *.
  - rewrite Hk. exact Hm.
  - exact Hm.
Qed.

Lemma keeps_print line : keeps_http_log (print line).
Proof. intros st. reflexivity. Qed.

Lemma keeps_create_report w users posts todos path :
  keeps_http_log (create_report_excel w users posts todos path).
Proof.
  intros st. rewrite create_report_excel_run.
  destruct (report_sheets users posts todos); reflexivity.
Qed.

Lemma keeps_compose w users posts todos :
  keeps_http_log (compose_body_lines w users posts todos).
Proof.
  intros st. rewrite compose_body_lines_run.
  destruct (py_len users), (py_len posts), (py_len todos); reflexivity.
Qed.

Lemma keeps_choose report_file : keeps_http_log (choose_attachments report_file).
Proof. intros st. rewrite choose_attachments_run. reflexivity. Qed.

Lemma keeps_send w host port user pass to subject body atts :
  keeps_http_log (send_email_with_attachments w host port user pass to subject body atts).
Proof.
  intros st. unfold send_email_with_attachments.
  rewrite run_bind, attach_files_run. destruct st as [f out hl sl t].
  unfold try_except, smtp_step, log_error, logging_error, now, append_file,
    print, modify, get_state, lift, ret, raise, bind. simpl.
  destruct (smtp_connect (smtp w) host port); simpl; [reflexivity |].
  destruct (smtp_starttls (smtp w)); simpl; [reflexivity |].
  destruct (smtp_login (smtp w) user pass); simpl; [reflexivity |].
  destruct (smtp_send_message (smtp w) _); simpl; [reflexivity |].
  destruct (smtp_quit (smtp w)); reflexivity.
Qed.

Lemma fetch_api_data_total w url hdrs st :
  exists v st',
    fetch_api_data w url hdrs st = (Ok v, st') /\
    http_log st' = (http_log st ++ [(url, hdrs)])%list.
Proof.
  rewrite fetch_api_data_run.
  destruct (http_get w (length (http_log st)) url hdrs) as [e | r];
    [eexists _, _; split; reflexivity |].
  destruct (raise_for_status r) as [[] | e]; [| eexists _, _; split; reflexivity].
  destruct (json_body r) as [e | data]; [eexists _, _; split; reflexivity |].
  destruct data; eexists _, _; split; reflexivity.
Qed.

Lemma fetch_api_data_records w url hdrs st :
  bodies_are_records w ->
  exists (recs : list record) st',
    fetch_api_data w url hdrs st = (Ok (PList (map PDict recs)), st').
Proof.
  intros Hb. rewrite fetch_api_data_run.
  destruct (http_get w (length (http_log st)) url hdrs) as [e | r] eqn:Hg;
    [exists [], (after_fetch_error w url hdrs e st); reflexivity |].
  destruct (raise_for_status r) as [[] | e] eqn:Hs;
    [| exists [], (after_fetch_error w url hdrs e st); reflexivity].
  destruct (json_body r) as [e | data] eqn:Hj;
    [exists [], (after_fetch_error w url hdrs e st); reflexivity |].
  destruct (Hb _ _ _ _ _ Hg Hs Hj) as [[kvs ->] | [recs ->]].
  - exists [kvs], (after_fetch_ok url hdrs st). reflexivity.
  - exists recs, (after_fetch_ok url hdrs st). reflexivity.
Qed.

Tactic Notation "run_fetch" constr(lemma) "as" simple_intropattern(pat) :=
  rewrite run_bind;
  match goal with
  | |- context [fetch_api_data ?w ?u ?h ?s] => destruct (lemma w u h s) as pat
  end.

(** The requests of a run: none when the port does not parse, else one per
    source, in order, all with the same headers. *)
Lemma script_requests w st :
  requests_of st (snd (script w st)) =
  match int_literal (unicode w) (getenv_default w "SMTP_PORT" "587") with
  | Some _ => map (fun url => (url, Some (request_headers w))) (api_urls w)
  | None => []
  end.
Proof.
  rewrite script_run. unfold main, requests_of.
  rewrite bind_print, bind_lift. unfold py_int.
  replace (length (http_log st))
    with (length (http_log (started st))) by reflexivity.
  fold (started st). fold (request_headers w).
  destruct (int_literal (unicode w) (getenv_default w "SMTP_PORT" "587")) as [port |].
  - run_fetch fetch_api_data_total as (users & st1 & Hrun & H1). rewrite Hrun. clear Hrun.
    run_fetch fetch_api_data_total as (posts & st2 & Hrun & H2). rewrite Hrun. clear Hrun.
    run_fetch fetch_api_data_total as (todos & st3 & Hrun & H3). rewrite Hrun. clear Hrun.
    match goal with
    | |- context [snd (?m st3)] => assert (K : keeps_http_log m)
    end.
    { repeat first
        [ apply keeps_print | apply keeps_create_report | apply keeps_compose
        | apply keeps_choose | apply keeps_send
        | apply keeps_bind; [| intros ?] ]. }
    rewrite (K st3), H3, H2, H1, <- !app_assoc, drop_app_length. reflexivity.
  - simpl. rewrite drop_all. reflexivity.
Qed.

(** ** C8: the Authorization header *)

(** C8, as amended.  When API_KEY is unset or empty, every request of the
    run is issued with no header at all, hence without Authorization; when
    API_KEY is set to a non-empty value, every request carries
    Authorization: Bearer <value> and nothing else; and a run that gets
    past the configuration issues exactly one request to each of the
    three sources, in order. *)
Theorem authorization_header_follows_api_key w st :
  let reqs := requests_of st (snd (script w st)) in
  (environ w !! "API_KEY" = None \/ environ w !! "API_KEY" = Some "" ->
   forall url hdrs, In (url, hdrs) reqs -> hdrs = Some []) /\
  (forall key, environ w !! "API_KEY" = Some key -> key <> "" ->
   forall url hdrs, In (url, hdrs) reqs ->
     hdrs = Some [("Authorization", "Bearer " +:+ key)]) /\
  (is_Some (int_literal (unicode w) (getenv_default w "SMTP_PORT" "587")) ->
   map fst reqs = api_urls w).
Proof.
  intros reqs. unfold reqs. rewrite script_requests.
  assert (Hin : forall url hdrs,
             In (url, hdrs)
                (match int_literal (unicode w) (getenv_default w "SMTP_PORT" "587") with
                 | Some _ => map (fun url => (url, Some (request_headers w))) (api_urls w)
                 | None => []
                 end) -> hdrs = Some (request_headers w)).
  { intros url hdrs H. destruct (int_literal _); [| destruct H].
    apply in_map_iff in H as (u & [= _ <-] & _). reflexivity. }
  split; [| split].
  - intros Hkey url hdrs H. rewrite (Hin url hdrs H).
    unfold request_headers, getenv. destruct Hkey as [-> | ->]; reflexivity.
  - intros key Hkey Hne url hdrs H. rewrite (Hin url hdrs H).
    unfold request_headers, getenv. rewrite Hkey.
    destruct key; [congruence | reflexivity].
  - intros [port ->]. rewrite map_map. simpl. reflexivity.
Qed.

Lemma authorization_header_witness :
  List.Forall
    (fun req => snd req = Some [("Authorization", "Bearer secret")])
    (requests_of empty_state
       (snd (script (world_with_env {["API_KEY" := "secret"]}) empty_state))).
Proof.
  apply List.Forall_forall. intros [url hdrs] Hin.
  apply (proj1 (proj2 (authorization_header_follows_api_key
                         (world_with_env {["API_KEY" := "secret"]}) empty_state))
           "secret") with (url := url).
  - vm_compute. reflexivity.
  - discriminate.
  - exact Hin.
Defined.

(** C8 as stated fails: with API_KEY set to the empty string the three
    requests go out, and none carries an Authorization header. *)
Lemma empty_api_key_sends_no_authorization :
  let w := world_with_env {["API_KEY" := ""]} in
  environ w !! "API_KEY" = Some "" /\
  requests_of empty_state (snd (script w empty_state)) =
    [ ("https://jsonplaceholder.typicode.com/users", Some []);
      ("https://jsonplaceholder.typicode.com/posts", Some []);
      ("https://jsonplaceholder.typicode.com/todos", Some []) ] /\
  forall url hdrs,
    In (url, Some hdrs) (requests_of empty_state (snd (script w empty_state))) ->
    assoc_lookup "Authorization" hdrs = None.
Proof.
  split; [reflexivity |].
  assert (H : requests_of empty_state
                (snd (script (world_with_env {["API_KEY" := ""]}) empty_state)) =
              [ ("https://jsonplaceholder.typicode.com/users", Some []);
                ("https://jsonplaceholder.typicode.com/posts", Some []);
                ("https://jsonplaceholder.typicode.com/todos", Some []) ])
    by (vm_compute; reflexivity).
  split; [exact H |]. intros url hdrs Hin. rewrite H in Hin.
  destruct Hin as [[= _ <-] | [[= _ <-] | [[= _ <-] | []]]]; reflexivity.
Qed.

(** ** C10: the SMTP port *)

(** C10.  When SMTP_PORT is set to a string that is no integer literal,
    the script raises [ValueError] from the configuration block and the
    interpreter exits with status 1.  By then the script has only set up
    logging and printed its first line: no request was issued, no SMTP
    command was sent, and no file other than the log was touched. *)
Theorem invalid_smtp_port_raises_at_startup w st s :
  environ w !! "SMTP_PORT" = Some s ->
  int_literal (unicode w) s = None ->
  exists e st',
    script w st = (Raise e, st') /\
    exn_cls e = ValueError /\
    exit_code (fst (script w st)) = 1 /\
    st' = started st /\
    http_log st' = http_log st /\
    smtp_log st' = smtp_log st /\
    stdout st' = (stdout st ++ ["Starting multi-API report job..."])%list /\
    forall path, path <> LOG_FILE -> fs st' !! path = fs st !! path.
Proof.
  intros Henv Hlit.
  assert (Hrun : script w st =
                 (Raise (Exn ValueError ("invalid literal for int() with base 10: "
                                           +:+ repr_str s)), started st)).
  { rewrite script_run. unfold main. rewrite bind_print, bind_lift.
    unfold py_int, getenv_default. rewrite Henv. simpl default. rewrite Hlit.
    reflexivity. }
  eexists _, _. split; [exact Hrun |]. rewrite Hrun.
  repeat split; try reflexivity.
  intros path Hne. simpl. apply lookup_insert_ne. congruence.
Qed.

Lemma invalid_smtp_port_witness :
  exists e st',
    script (world_with_env {["SMTP_PORT" := "five-eight-seven"]}) empty_state
      = (Raise e, st') /\
    exn_cls e = ValueError /\ http_log st' = [] /\ smtp_log st' = [].
Proof.
  destruct (invalid_smtp_port_raises_at_startup
              (world_with_env {["SMTP_PORT" := "five-eight-seven"]}) empty_state
              "five-eight-seven")
    as (e & st' & Hrun & Hcls & _ & _ & Hhttp & Hsmtp & _).
  - reflexivity.
  - reflexivity.
  - exists e, st'. repeat split; assumption.
Defined.

(** ** C7: what is caught and what is not *)

(** In this model a run ends normally whenever the port parses and the
    bodies that parse are records. *)
Lemma script_completes w st :
  is_Some (int_literal (unicode w) (getenv_default w "SMTP_PORT" "587")) ->
  bodies_are_records w ->
  exists st', script w st = (Ok tt, st').
Proof.
  intros [port Hport] Hb. rewrite script_run. unfold main.
  rewrite bind_print, bind_lift. unfold py_int. rewrite Hport.
  run_fetch (fun (_ : world) u h s => fetch_api_data_records w u h s Hb) as (users & st1 & ->).
  run_fetch (fun (_ : world) u h s => fetch_api_data_records w u h s Hb) as (posts & st2 & ->).
  run_fetch (fun (_ : world) u h s => fetch_api_data_records w u h s Hb) as (todos & st3 & ->).
  rewrite bind_print, run_bind, create_report_excel_run, report_sheets_records.
  rewrite run_bind, compose_body_lines_run. cbn [py_len].
  rewrite bind_print, run_bind, choose_attachments_run, run_bind.
  match goal with
  | |- context [send_email_with_attachments ?w ?a ?b ?c ?d ?e ?f ?g ?h ?s] =>
      destruct (send_email_run w a b c d e f g h s) as (st' & -> & _)
  end.
  eexists. reflexivity.
Qed.

Lemma py_iter_len v items : py_iter v = Ok items -> exists n, py_len v = Ok n.
Proof. destruct v; simpl; intros H; try discriminate H; eauto. Qed.

Lemma write_sheet_len ws data mapping ws' :
  write_sheet_from_json ws data mapping = Ok ws' -> exists n, py_len data = Ok n.
Proof.
  unfold write_sheet_from_json. destruct (py_iter data) as [items | e] eqn:E;
    [| discriminate]. intros _. exact (py_iter_len data items E).
Qed.

Lemma report_sheets_len users posts todos shs :
  report_sheets users posts todos = Ok shs ->
  exists n_users n_posts n_todos,
    py_len users = Ok n_users /\ py_len posts = Ok n_posts /\ py_len todos = Ok n_todos.
Proof.
  unfold report_sheets.
  destruct (write_sheet_from_json _ users _) as [u | e] eqn:Eu; [| discriminate].
  destruct (write_sheet_from_json _ posts _) as [p | e] eqn:Ep; [| discriminate].
  destruct (write_sheet_from_json _ todos _) as [d | e] eqn:Ed; [| discriminate].
  intros _.
  destruct (write_sheet_len _ _ _ _ Eu) as [nu ->].
  destruct (write_sheet_len _ _ _ _ Ep) as [np ->].
  destruct (write_sheet_len _ _ _ _ Ed) as [nt ->].
  exists nu, np, nt. repeat split; reflexivity.
Qed.

(** A run ends in one of three ways: normally; with the exception of
    [int] on SMTP_PORT; or with the exception of the report builder on the
    three fetched values. *)
Lemma script_outcomes w st :
  (exists st', script w st = (Ok tt, st')) \/
  (exists e st',
      script w st = (Raise e, st') /\
      py_int (unicode w) (getenv_default w "SMTP_PORT" "587") = Raise e) \/
  (exists e st' users st1 posts st2 todos st3,
      script w st = (Raise e, st') /\
      fetch_api_data w (getenv_default w "API1_URL" "https://jsonplaceholder.typicode.com/users")
        (Some (request_headers w)) (started st) = (Ok users, st1) /\
      fetch_api_data w (getenv_default w "API2_URL" "https://jsonplaceholder.typicode.com/posts")
        (Some (request_headers w)) st1 = (Ok posts, st2) /\
      fetch_api_data w (getenv_default w "API3_URL" "https://jsonplaceholder.typicode.com/todos")
        (Some (request_headers w)) st2 = (Ok todos, st3) /\
      report_sheets users posts todos = Raise e).
Proof.
  rewrite script_run. unfold main. rewrite bind_print, bind_lift.
  fold (started st). fold (request_headers w).
  destruct (py_int (unicode w) (getenv_default w "SMTP_PORT" "587")) as [port | e];
    [| right; left; eauto].
  rewrite run_bind.
  destruct (fetch_api_data_total w
              (getenv_default w "API1_URL" "https://jsonplaceholder.typicode.com/users")
              (Some (request_headers w)) (started st)) as (users & st1 & H1 & _).
  rewrite H1, run_bind.
  destruct (fetch_api_data_total w
              (getenv_default w "API2_URL" "https://jsonplaceholder.typicode.com/posts")
              (Some (request_headers w)) st1) as (posts & st2 & H2 & _).
  rewrite H2, run_bind.
  destruct (fetch_api_data_total w
              (getenv_default w "API3_URL" "https://jsonplaceholder.typicode.com/todos")
              (Some (request_headers w)) st2) as (todos & st3 & H3 & _).
  rewrite H3, bind_print, run_bind, create_report_excel_run.
  destruct (report_sheets users posts todos) as [shs | e] eqn:Er.
  - left.
    destruct (report_sheets_len _ _ _ _ Er) as (nu & np & nt & Hu & Hp & Ht).
    rewrite run_bind, compose_body_lines_run, Hu, Hp, Ht.
    rewrite bind_print, run_bind, choose_attachments_run, run_bind.
    match goal with
    | |- context [send_email_with_attachments ?w ?a ?b ?c ?d ?e ?f ?g ?h ?s] =>
        destruct (send_email_run w a b c d e f g h s) as (st' & -> & _)
    end.
    eexists. reflexivity.
  - right; right. exists e. eexists _, users, st1, posts, st2, todos, st3.
    split; [reflexivity |].
    split; [first [exact H1 | reflexivity] |].
    split; [first [exact H2 | reflexivity] |].
    split; [first [exact H3 | reflexivity] | first [exact Er | reflexivity]].
Qed.

(** C7, as amended.  Failures are caught where the script has a handler,
    in the fetcher and around the SMTP session: [fetch_api_data] never
    raises; [send_email_with_attachments] never raises, and when the server
    refuses a command of the session (connect, STARTTLS, login, send or
    quit) exactly one entry with context "Email sending failed" is added
    to the log.  So the script runs to its end and exits 0 unless an
    exception arises outside the two handlers: it stops with status 1 only
    on the exception of [int] on SMTP_PORT or on an exception of the
    report builder on the fetched values. *)
Theorem handled_failures_do_not_abort :
  (forall w url hdrs st, exists v st', fetch_api_data w url hdrs st = (Ok v, st')) /\
  (forall w host port user pass to subject body atts st,
      exists st',
        send_email_with_attachments w host port user pass to subject body atts st
          = (Ok tt, st') /\
        forall e,
          smtp_failure (smtp w) host port user pass
            (Email user to subject body (file_parts (fs st) atts)) = Some e ->
          fs st' = with_entry (error_entry (clock w (ticks st)) "Email sending failed" e)
                              (fs st)) /\
  (forall w st,
      exit_code (fst (script w st)) = 0 \/
      (exists e,
          fst (script w st) = Raise e /\
          py_int (unicode w) (getenv_default w "SMTP_PORT" "587") = Raise e) \/
      (exists e users st1 posts st2 todos st3,
          fst (script w st) = Raise e /\
          fetch_api_data w
            (getenv_default w "API1_URL" "https://jsonplaceholder.typicode.com/users")
            (Some (request_headers w)) (started st) = (Ok users, st1) /\
          fetch_api_data w
            (getenv_default w "API2_URL" "https://jsonplaceholder.typicode.com/posts")
            (Some (request_headers w)) st1 = (Ok posts, st2) /\
          fetch_api_data w
            (getenv_default w "API3_URL" "https://jsonplaceholder.typicode.com/todos")
            (Some (request_headers w)) st2 = (Ok todos, st3) /\
          report_sheets users posts todos = Raise e)).
Proof.
  split; [| split].
  - intros w url hdrs st.
    destruct (fetch_api_data_total w url hdrs st) as (v & st' & Hrun & _). eauto.
  - intros w host port user pass to subject body atts st.
    destruct (send_email_run w host port user pass to subject body atts st)
      as (st' & Hrun & Hst).
    exists st'. split; [exact Hrun |]. intros e He. rewrite He in Hst. exact Hst.
  - intros w st.
    destruct (script_outcomes w st)
      as [(st' & Hrun) | [(e & st' & Hrun & Hport)
                         | (e & st' & users & st1 & posts & st2 & todos & st3
                            & Hrun & H1 & H2 & H3 & Hrep)]];
      rewrite Hrun; simpl.
    + left. reflexivity.
    + right; left. eauto.
    + right; right. exists e, users, st1, posts, st2, todos, st3. auto.
Qed.

Lemma handled_failures_witness :
  exists st',
    send_email_with_attachments (world_with_smtp refusing_smtp) None 587 None None None
      "Daily Multi-API Report" "Hello," ["daily_report.xlsx"] report_on_disk = (Ok tt, st') /\
    fs st' = with_entry (error_entry "t0" "Email sending failed"
                                     (Exn OSError "Connection refused"))
                        (fs report_on_disk).
Proof.
  destruct (proj1 (proj2 handled_failures_do_not_abort)
              (world_with_smtp refusing_smtp) None 587 None None None
              "Daily Multi-API Report" "Hello," ["daily_report.xlsx"] report_on_disk)
    as (st' & Hrun & Hlog).
  exists st'. split; [exact Hrun |]. apply Hlog. reflexivity.
Defined.

(** In the troubled world (one source times out, one answers 404, the
    mail server is down) the run still ends normally. *)
Lemma troubled_world_bodies : bodies_are_records troubled_world.
Proof.
  intros n url hdrs r v Hg _ Hj. simpl in Hg.
  destruct n as [| [| n]]; [discriminate Hg | |];
    injection Hg as <-; simpl in Hj; injection Hj as <-.
  - left. exists []. reflexivity.
  - right. exists [ann]. reflexivity.
Qed.

Lemma troubled_world_completes :
  exists st', script troubled_world empty_state = (Ok tt, st').
Proof.
  apply script_completes; [exists 587; reflexivity | exact troubled_world_bodies].
Qed.

(** C7 as stated fails: with SMTP_PORT set to "abc" the script stops with
    an uncaught [ValueError] and the interpreter exits with status 1. *)
Lemma bad_smtp_port_aborts_the_run :
  let w := world_with_env {["SMTP_PORT" := "abc"]} in
  fst (script w empty_state)
    = Raise (Exn ValueError "invalid literal for int() with base 10: 'abc'") /\
  exit_code (fst (script w empty_state)) = 1.
Proof.
  split; vm_compute; reflexivity.
Qed.

(** * Further properties *)

(** ** The sheet writer: styles, used sheets, ill-typed data *)

Lemma write_rows_app ws items keys ws' :
  write_rows ws items keys = Ok ws' ->
  exists data,
    ws' = Worksheet (title ws) (rows ws ++ data)%list (column_widths ws) /\
    length data = length items /\
    Forall (fun row => Forall unstyled row /\ length row = length keys) data.
Proof.
  revert ws ws'. induction items as [| item items IH]; intros ws ws'; simpl.
  - intros [= <-]. exists []. rewrite app_nil_r. destruct ws. repeat constructor.
  - destruct (build_row item keys) as [row | e] eqn:Er; simpl; [| discriminate].
    intros H. destruct (IH _ _ H) as (data & -> & Hlen & Hall). simpl.
    exists (map plain_cell row :: data). rewrite <- app_assoc. simpl.
    split; [reflexivity |]. split; [congruence |]. constructor; [| exact Hall].
    split.
    + apply Forall_forall. intros c Hc. apply list_elem_of_In in Hc.
      apply in_map_iff in Hc as (v & <- & _). split; reflexivity.
    + rewrite length_map. clear -Er. revert row Er.
      induction keys as [| k keys IHk]; intros row; simpl.
      * intros [= <-]. reflexivity.
      * destruct (py_get item k); simpl; [| discriminate].
        destruct (build_row item keys) as [vs |]; simpl; [| discriminate].
        intros [= <-]. simpl. f_equal. apply IHk. reflexivity.
Qed.




Lemma build_row_dict item keys :
  is_dict item = true -> exists row, build_row item keys = Ok row.
Proof.
  destruct item; try discriminate. intros _. eexists. apply build_row_record.
Qed.

Lemma build_row_not_dict item key keys :
  is_dict item = false ->
  exists e, build_row item (key :: keys) = Raise e /\ exn_cls e = AttributeError.
Proof.
  destruct item; try discriminate; intros _; eexists; split; reflexivity.
Qed.

Lemma write_rows_empty_mapping ws items :
  exists ws', write_rows ws items [] = Ok ws'.
Proof.
  revert ws. induction items as [| item items IH]; intros ws; simpl; eauto.
Qed.

Lemma write_rows_dicts ws items keys :
  forallb is_dict items = true -> exists ws', write_rows ws items keys = Ok ws'.
Proof.
  revert ws. induction items as [| item items IH]; intros ws; simpl; [eauto |].
  intros H. apply andb_prop in H as [Hd Hrest].
  destruct (build_row_dict item keys Hd) as [row ->]. simpl. apply IH, Hrest.
Qed.

Lemma write_rows_not_dicts ws items key keys :
  forallb is_dict items = false ->
  exists e, write_rows ws items (key :: keys) = Raise e /\ exn_cls e = AttributeError.
Proof.
  revert ws. induction items as [| item items IH]; intros ws; [discriminate |].
  cbn [forallb write_rows]. destruct (is_dict item) eqn:Hd.
  - destruct (build_row_dict item (key :: keys) Hd) as [row ->]. cbn [andb rbind].
    apply IH.
  - intros _. destruct (build_row_not_dict item key keys Hd) as (e & -> & Hc).
    exists e. split; [reflexivity | exact Hc].
Qed.

(** [write_sheet_from_json] by cases on the data. *)
Lemma write_sheet_cases ws data mapping :
  match py_iter data with
  | Raise e => write_sheet_from_json ws data mapping = Raise e /\ exn_cls e = TypeError
  | Ok items =>
      if bool_decide (mapping = []) || forallb is_dict items
      then exists ws', write_sheet_from_json ws data mapping = Ok ws'
      else exists e, write_sheet_from_json ws data mapping = Raise e
                     /\ exn_cls e = AttributeError
  end.
Proof.
  unfold write_sheet_from_json.
  destruct (py_iter data) as [items | e] eqn:Ei; cbn [rbind].
  - destruct mapping as [| [h k] mapping].
    + rewrite bool_decide_eq_true_2 by reflexivity. cbn [orb map].
      match goal with
      | |- context [write_rows ?a items []] =>
          destruct (write_rows_empty_mapping a items) as [ws' ->]
      end.
      cbn [rbind]. eauto.
    + rewrite bool_decide_eq_false_2 by discriminate. cbn [orb map snd].
      destruct (forallb is_dict items) eqn:Hd.
      * match goal with
        | |- context [write_rows ?a items ?ks] =>
            destruct (write_rows_dicts a items ks Hd) as [ws' ->]
        end.
        cbn [rbind]. eauto.
      * match goal with
        | |- context [write_rows ?a items (?k0 :: ?ks)] =>
            destruct (write_rows_not_dicts a items k0 ks Hd) as (e & -> & Hc)
        end.
        cbn [rbind]. eauto.
  - split; [reflexivity |]. destruct data; try discriminate Ei;
      simpl in Ei; injection Ei as <-; reflexivity.
Qed.

(** X3.  [write_sheet_from_json] needs data it can iterate and, unless the
    mapping is empty, dicts as items.  Data that cannot be iterated raises
    [TypeError]; a success means the data was iterable and every item a
    dict (or the mapping empty); and a first item that is not a dict
    raises [AttributeError]. *)
Theorem write_sheet_from_json_needs_records ws data (mapping : field_mapping) :
  (forall e, py_iter data = Raise e ->
     write_sheet_from_json ws data mapping = Raise e /\ exn_cls e = TypeError) /\
  (forall ws', write_sheet_from_json ws data mapping = Ok ws' ->
     exists items, py_iter data = Ok items /\
                   (mapping = [] \/ forallb is_dict items = true)) /\
  (forall item items,
     py_iter data = Ok (item :: items) -> is_dict item = false -> mapping <> [] ->
     exists e, write_sheet_from_json ws data mapping = Raise e /\
               exn_cls e = AttributeError).
Proof.
  pose proof (write_sheet_cases ws data mapping) as H.
  destruct (py_iter data) as [items0 | e0] eqn:Ei.
  - split; [intros e [=] |]. split.
    + intros ws' Hw. exists items0. split; [reflexivity |].
      destruct (bool_decide (mapping = [])) eqn:Hm.
      * left. apply bool_decide_eq_true in Hm. exact Hm.
      * cbn [orb] in H. destruct (forallb is_dict items0); [right; reflexivity |].
        destruct H as (e & He & _). congruence.
    + intros item items [= ->] Hd Hm.
      rewrite bool_decide_eq_false_2 in H by exact Hm.
      cbn [orb forallb] in H. rewrite Hd in H. exact H.
  - destruct H as [Hw Hc]. split.
    + intros e [= <-]. auto.
    + split; [intros ws' Hw'; congruence | intros item items [=]].
Qed.

(** ** The report builder: what it needs and what it leaves on failure *)

Lemma write_sheet_record_iterable ws data h k (mapping : field_mapping) :
  (exists ws', write_sheet_from_json ws data ((h, k) :: mapping) = Ok ws') <->
  record_iterable data.
Proof.
  pose proof (write_sheet_cases ws data ((h, k) :: mapping)) as H.
  unfold record_iterable.
  destruct (py_iter data) as [items | e0].
  - rewrite bool_decide_eq_false_2 in H by discriminate. cbn [orb] in H.
    destruct (forallb is_dict items) eqn:Hd.
    + split; [intros _; eauto | intros _; exact H].
    + destruct H as (e & Hw & _). split.
      * intros [ws' Hw']. congruence.
      * intros (items' & [= <-] & Hall). congruence.
  - destruct H as [Hw _]. split.
    + intros [ws' Hw']. congruence.
    + intros (items & [=] & _).
Qed.

Lemma write_sheet_raises_class ws data mapping e :
  write_sheet_from_json ws data mapping = Raise e ->
  exn_cls e = TypeError \/ exn_cls e = AttributeError.
Proof.
  intros He. pose proof (write_sheet_cases ws data mapping) as H.
  destruct (py_iter data) as [items | e0].
  - destruct (bool_decide (mapping = []) || forallb is_dict items).
    + destruct H as [ws' Hw]. congruence.
    + destruct H as (e' & Hw & Hc). right. congruence.
  - destruct H as [Hw Hc]. left. congruence.
Qed.

(** In this model [create_report_excel] returns its path exactly when each
    of the three inputs can be iterated and holds dicts only. *)
Lemma create_report_excel_cases w users posts todos path st :
  ((exists st', create_report_excel w users posts todos path st = (Ok path, st')) <->
   record_iterable users /\ record_iterable posts /\ record_iterable todos) /\
  (forall e st',
      create_report_excel w users posts todos path st = (Raise e, st') ->
      fs st' = fs st /\ (exn_cls e = TypeError \/ exn_cls e = AttributeError)).
Proof.
  rewrite create_report_excel_run. unfold report_sheets, user_mapping, post_mapping,
    todo_mapping.
  rewrite <- (write_sheet_record_iterable (Worksheet "Users" [] ∅) users "ID" "id"
                [("Name", "name"); ("Username", "username"); ("Email", "email")]).
  rewrite <- (write_sheet_record_iterable (Worksheet "Posts" [] ∅) posts "ID" "id"
                [("User ID", "userId"); ("Title", "title")]).
  rewrite <- (write_sheet_record_iterable (Worksheet "Todos" [] ∅) todos "ID" "id"
                [("User ID", "userId"); ("Title", "title"); ("Completed", "completed")]).
  destruct (write_sheet_from_json _ users _) as [u | eu] eqn:Eu; cbn [rbind].
  - destruct (write_sheet_from_json _ posts _) as [p | ep] eqn:Ep; cbn [rbind].
    + destruct (write_sheet_from_json _ todos _) as [d | ed] eqn:Ed; cbn [rbind].
      * split; [split; [intros _; repeat split; eauto | intros _; eauto]
               | intros e st' [=]].
      * split.
        -- split; [intros [st' [=]] | intros (_ & _ & [ws' [=]])].
        -- intros e st' [= <- <-]. split; [reflexivity |].
           exact (write_sheet_raises_class _ _ _ _ Ed).
    + split.
      * split; [intros [st' [=]] | intros (_ & [ws' [=]] & _)].
      * intros e st' [= <- <-]. split; [reflexivity |].
        exact (write_sheet_raises_class _ _ _ _ Ep).
  - split.
    + split; [intros [st' [=]] | intros ([ws' [=]] & _)].
    + intros e st' [= <- <-]. split; [reflexivity |].
      exact (write_sheet_raises_class _ _ _ _ Eu).
Qed.

(** X4.  [create_report_excel] needs three inputs it can iterate, holding
    dicts only: it returns only for such inputs, and when one of them is
    not of this kind it raises before saving, so that the file system is
    left as it was: no partial report is written and an earlier report is
    not touched. *)
Theorem create_report_excel_needs_records w users posts todos path st :
  (forall st', create_report_excel w users posts todos path st = (Ok path, st') ->
     record_iterable users /\ record_iterable posts /\ record_iterable todos) /\
  (~ (record_iterable users /\ record_iterable posts /\ record_iterable todos) ->
   exists e st',
     create_report_excel w users posts todos path st = (Raise e, st') /\
     fs st' = fs st).
Proof.
  destruct (create_report_excel_cases w users posts todos path st) as [Hiff Hraise].
  split.
  - intros st' Hrun. apply Hiff. eauto.
  - intros Hnot.
    destruct (create_report_excel w users posts todos path st) as [[p | e] st'] eqn:Hrun.
    + assert (p = path) as ->.
      { rewrite create_report_excel_run in Hrun.
        destruct (report_sheets users posts todos); [| discriminate].
        injection Hrun as <- _. reflexivity. }
      exfalso. apply Hnot, Hiff. exists st'. reflexivity.
    + exists e, st'. split; [reflexivity |]. apply (Hraise e st'). reflexivity.
Qed.

(** ** Column widths *)

Lemma column_index_from_snoc acc s c :
  column_index_from acc (s +:+ String c "") =
  (column_index_from acc s * 26 + letter_value c)%nat.
Proof.
  revert acc. induction s as [| d s IH]; intros acc; simpl; [reflexivity | apply IH].
Qed.

Lemma column_letter_from_index fuel n :
  (n <= fuel)%nat -> column_index (column_letter_from fuel n) = n.
Proof.
  revert n. induction fuel as [| fuel IH]; intros n Hn.
  - assert (n = 0%nat) as -> by lia. reflexivity.
  - cbn [column_letter_from]. destruct (n =? 0)%nat eqn:E.
    + apply Nat.eqb_eq in E. subst. reflexivity.
    + apply Nat.eqb_neq in E. unfold column_index.
      rewrite column_index_from_snoc.
      fold (column_index (column_letter_from fuel ((n - 1) / 26))).
      assert (Hq : ((n - 1) / 26 <= fuel)%nat).
      { pose proof (Nat.Div0.div_le_upper_bound (n - 1) 26 fuel). nia. }
      rewrite (IH _ Hq). unfold letter_value.
      pose proof (Nat.mod_upper_bound (n - 1) 26 ltac:(lia)) as Hr.
      rewrite nat_ascii_embedding by lia.
      pose proof (Nat.div_mod_eq (n - 1) 26). lia.
Qed.

Lemma get_column_letter_index n : column_index (get_column_letter n) = n.
Proof. apply column_letter_from_index. reflexivity. Qed.

Lemma get_column_letter_inj a b :
  get_column_letter a = get_column_letter b -> a = b.
Proof.
  intros H. rewrite <- (get_column_letter_index a), <- (get_column_letter_index b), H.
  reflexivity.
Qed.

Lemma widths_fold_lookup (val : nat -> Z) (l : list nat) (m0 : gmap string Z) j :
  In j l ->
  fold_left (fun widths i => <[get_column_letter (S i) := val i]> widths) l m0
    !! get_column_letter (S j) = Some (val j).
Proof.
  induction l as [| x l IH] using rev_ind; [intros [] |].
  intros Hin. rewrite fold_left_app. cbn [fold_left].
  destruct (Nat.eq_dec x j) as [-> | Hne].
  - apply lookup_insert_eq.
  - rewrite lookup_insert_ne.
    + apply IH. apply in_app_or in Hin as [Hin | [Hx | []]]; [exact Hin | contradiction].
    + intros Heq. apply get_column_letter_inj in Heq. congruence.
Qed.

Lemma max_length_from col acc :
  (acc <= fold_left
            (fun acc c =>
               let cell_len := str_len (py_str (value c)) in
               if (acc <? cell_len)%nat then cell_len else acc) col acc)%nat /\
  forall c, In c col ->
    (str_len (py_str (value c))
     <= fold_left
          (fun acc c =>
             let cell_len := str_len (py_str (value c)) in
             if (acc <? cell_len)%nat then cell_len else acc) col acc)%nat.
Proof.
  revert acc. induction col as [| c col IH]; intros acc; cbn [fold_left].
  - split; [lia | intros c []].
  - destruct (IH (if (acc <? str_len (py_str (value c)))%nat
                  then str_len (py_str (value c)) else acc)) as [Hacc Hall].
    cbv zeta in *.
    destruct (acc <? str_len (py_str (value c)))%nat eqn:E.
    + apply Nat.ltb_lt in E. split; [lia |].
      intros c' [<- | Hin]; [lia | apply Hall, Hin].
    + apply Nat.ltb_ge in E. split; [lia |].
      intros c' [<- | Hin]; [lia | apply Hall, Hin].
Qed.

Lemma column_count_bound (rs : list (list cell)) row :
  In row rs -> (length row <= column_count rs)%nat.
Proof.
  unfold column_count. induction rs as [| r rs IH]; [intros [] |].
  simpl. intros [-> | Hin]; [lia |]. specialize (IH Hin). lia.
Qed.

Lemma nth_of_lookup (row : list cell) j c d : row !! j = Some c -> nth j row d = c.
Proof.
  revert j. induction row as [| x row IH]; intros [| j]; simpl; try discriminate.
  - intros [= ->]. reflexivity.
  - apply IH.
Qed.

(** X5.  [autosize_columns] gives every column its own entry, under the
    letter of the column, equal to the length of the longest printed value
    in the column plus 2; so the printed value of every cell fits its
    column with a margin of 2, and one column never overwrites the width
    of another. *)
Theorem autosize_columns_fits_every_cell ws row j c :
  In row (rows ws) ->
  row !! j = Some c ->
  exists width,
    column_widths (autosize_columns ws) !! get_column_letter (S j) = Some width /\
    width = Z.of_nat (max_length (column (rows ws) j)) + 2 /\
    Z.of_nat (str_len (py_str (value c))) + 2 <= width.
Proof.
  intros Hrow Hc.
  eexists. split; [| split; [reflexivity |]].
  - unfold autosize_columns. cbn [column_widths].
    apply (widths_fold_lookup
             (fun i => Z.of_nat (max_length (column (rows ws) i)) + 2)).
    apply in_seq. pose proof (column_count_bound _ _ Hrow).
    apply lookup_lt_Some in Hc. lia.
  - assert (Hin : In c (column (rows ws) j)).
    { unfold column. apply in_map_iff. exists row. split; [| exact Hrow].
      apply nth_of_lookup, Hc. }
    assert (Hfit : (str_len (py_str (value c)) <= max_length (column (rows ws) j))%nat)
      by exact (proj2 (max_length_from (column (rows ws) j) 0) c Hin).
    lia.
Qed.

Lemma autosize_columns_witness :
  column_widths (autosize_columns two_by_two) !! "B" = Some 15.
Proof.
  destruct (autosize_columns_fits_every_cell two_by_two
              [plain_cell (PInt 1); plain_cell (PStr "Leanne Graham")] 1
              (plain_cell (PStr "Leanne Graham")))
    as (width & Hw & -> & _).
  - right. left. reflexivity.
  - reflexivity.
  - exact Hw.
Defined.

(** ** The fetcher: one request, one file *)

Lemma string_app_length a b :
  String.length (a +:+ b) = (String.length a + String.length b)%nat.
Proof. induction a as [| c a IH]; [reflexivity | simpl; f_equal; exact IH]. Qed.

Lemma string_app_nil_r a : a +:+ "" = a.
Proof.
  induction a as [| c a IH]; [reflexivity |].
  change (String c (a +:+ "") = String c a). f_equal. exact IH.
Qed.

Lemma string_app_assoc a b c : (a +:+ b) +:+ c = a +:+ (b +:+ c).
Proof.
  induction a as [| x a IH]; [reflexivity |].
  change (String x ((a +:+ b) +:+ c) = String x (a +:+ (b +:+ c))). f_equal. exact IH.
Qed.

Lemma with_entry_other entry f path :
  path <> LOG_FILE -> with_entry entry f !! path = f !! path.
Proof. intros H. unfold with_entry. apply lookup_insert_ne. congruence. Qed.

Lemma with_entry_changes asctime context e f :
  with_entry (error_entry asctime context e) f <> f.
Proof.
  intros H. apply (f_equal (fun m => m !! LOG_FILE)) in H.
  unfold with_entry in H. rewrite lookup_insert_eq in H.
  destruct (f !! LOG_FILE) as [old |]; [| discriminate].
  injection H as H. apply (f_equal String.length) in H.
  unfold error_entry, log_record in H. cbn [default] in H.
  rewrite !string_app_length in H. simpl in H. lia.
Qed.

(** X6.  One call of [fetch_api_data] issues exactly one request, to the
    given URL with the given headers, whatever the outcome: there is no
    retry.  It sends no SMTP command, leaves every file other than the log
    as it was, and either leaves the log too or appends to it. *)
Theorem fetch_api_data_footprint w url hdrs st :
  let st' := snd (fetch_api_data w url hdrs st) in
  http_log st' = (http_log st ++ [(url, hdrs)])%list /\
  smtp_log st' = smtp_log st /\
  (forall path, path <> LOG_FILE -> fs st' !! path = fs st !! path) /\
  (fs st' = fs st \/ exists entry, fs st' = with_entry entry (fs st)).
Proof.
  intros st'. unfold st'. rewrite fetch_api_data_run.
  assert (Herr : forall e,
             let s := after_fetch_error w url hdrs e st in
             http_log s = (http_log st ++ [(url, hdrs)])%list /\
             smtp_log s = smtp_log st /\
             (forall path, path <> LOG_FILE -> fs s !! path = fs st !! path) /\
             (fs s = fs st \/ exists entry, fs s = with_entry entry (fs st))).
  { intros e. cbn. split; [reflexivity |]. split; [reflexivity |]. split.
    - intros path Hp. apply with_entry_other, Hp.
    - right. eexists. reflexivity. }
  assert (Hok : let s := after_fetch_ok url hdrs st in
                http_log s = (http_log st ++ [(url, hdrs)])%list /\
                smtp_log s = smtp_log st /\
                (forall path, path <> LOG_FILE -> fs s !! path = fs st !! path) /\
                (fs s = fs st \/ exists entry, fs s = with_entry entry (fs st))).
  { cbn. auto. }
  destruct (http_get w (length (http_log st)) url hdrs) as [e | r]; [apply Herr |].
  destruct (raise_for_status r) as [[] | e]; [| apply Herr].
  destruct (json_body r) as [e | data]; [apply Herr |].
  destruct data; apply Hok.
Qed.

(** X7.  The log changes exactly when the fetch fails.  A fetch that fails
    leaves a file system different from the one it found; a fetch that does
    not fail leaves the file system as it was and returns the parsed body,
    wrapped in a one-element list when it is a dict. *)
Theorem fetch_api_data_logs_exactly_on_failure w url hdrs st :
  (fetch_fails w st url hdrs -> fs (snd (fetch_api_data w url hdrs st)) <> fs st) /\
  (~ fetch_fails w st url hdrs ->
   fs (snd (fetch_api_data w url hdrs st)) = fs st /\
   exists r data,
     http_get w (length (http_log st)) url hdrs = GetReturns r /\
     json_body r = inr data /\
     fst (fetch_api_data w url hdrs st) =
       Ok (if is_dict data then PList [data] else data)).
Proof.
  unfold fetch_fails. rewrite fetch_api_data_run.
  destruct (http_get w (length (http_log st)) url hdrs) as [e | r].
  - split; [intros _; apply with_entry_changes | intros H; exfalso; apply H; exact I].
  - split.
    + intros [Hs | [e He]].
      * destruct (raise_for_status_error r Hs) as [e ->]. apply with_entry_changes.
      * rewrite He. destruct (raise_for_status r) as [[] | e'];
          apply with_entry_changes.
    + intros Hn.
      assert (Hs : ~ 400 <= status_code r < 600) by (intros Hs; apply Hn; left; exact Hs).
      rewrite (raise_for_status_ok r Hs).
      destruct (json_body r) as [e | data] eqn:Hj; [exfalso; apply Hn; right; eauto |].
      destruct data; (split; [reflexivity |]); eexists _, _;
        (split; [reflexivity |]); (split; [exact Hj | reflexivity]).
Qed.

(** ** The files of a run *)

Lemma writes_bind {A B} (m : M A) (k : A -> M B) :
  writes_only m -> (forall a, writes_only (k a)) -> writes_only (bind m k).
Proof.
  intros Hm Hk st. rewrite run_bind. specialize (Hm st).
  destruct (m st) as [[a | e] st1]; simpl in *.
  - eapply rtc_trans; [exact Hm | apply Hk].
  - exact Hm.
Qed.

Lemma writes_print line : writes_only (print line).
Proof. intros st. apply rtc_refl. Qed.

Lemma writes_lift {A} (r : result A) : writes_only (lift r).
Proof. intros st. apply rtc_refl. Qed.

Lemma writes_fetch w url hdrs : writes_only (fetch_api_data w url hdrs).
Proof.
  intros st.
  pose proof (fetch_api_data_run w url hdrs st) as H.
  assert (Herr : forall e,
             rtc script_write (fs st) (fs (after_fetch_error w url hdrs e st))).
  { intros e. apply rtc_once. left. eexists. reflexivity. }
  destruct (http_get w (length (http_log st)) url hdrs) as [e | r];
    [rewrite H; apply Herr |].
  destruct (raise_for_status r) as [[] | e]; [| rewrite H; apply Herr].
  destruct (json_body r) as [e | data]; [rewrite H; apply Herr |].
  destruct data; rewrite H; apply rtc_refl.
Qed.

Lemma writes_create_report w users posts todos :
  writes_only (create_report_excel w users posts todos "daily_report.xlsx").
Proof.
  intros st. rewrite create_report_excel_run.
  destruct (report_sheets users posts todos); [| apply rtc_refl].
  apply rtc_once. right. eexists. reflexivity.
Qed.

Lemma writes_compose w users posts todos :
  writes_only (compose_body_lines w users posts todos).
Proof.
  intros st. rewrite compose_body_lines_run.
  destruct (py_len users), (py_len posts), (py_len todos); apply rtc_refl.
Qed.

Lemma writes_choose report_file : writes_only (choose_attachments report_file).
Proof. intros st. rewrite choose_attachments_run. apply rtc_refl. Qed.

Lemma writes_send w host port user pass to subject body atts :
  writes_only (send_email_with_attachments w host port user pass to subject body atts).
Proof.
  intros st.
  destruct (send_email_run w host port user pass to subject body atts st)
    as (st' & -> & Hst). cbn [snd].
  destruct (smtp_failure _ _ _ _ _ _) as [e |].
  - rewrite Hst. apply rtc_once. left. eexists. reflexivity.
  - destruct Hst as [-> _]. apply rtc_refl.
Qed.

Lemma writes_main w : writes_only (main w).
Proof.
  unfold main.
  repeat first
    [ apply writes_print | apply writes_lift | apply writes_fetch
    | apply writes_create_report | apply writes_compose | apply writes_choose
    | apply writes_send
    | apply writes_bind; [| intros ?] ].
Qed.

Lemma script_writes w st :
  rtc script_write (with_entry "" (fs st)) (fs (snd (script w st))).
Proof. rewrite script_run. apply (writes_main w (after_logging_setup st)). Qed.

Lemma writes_keep_other_files f f' path :
  rtc script_write f f' ->
  path <> LOG_FILE -> path <> "daily_report.xlsx" -> f' !! path = f !! path.
Proof.
  intros H Hlog Hrep. induction H as [| f f1 f2 Hstep _ IH]; [reflexivity |].
  rewrite IH. destruct Hstep as [[entry ->] | [bytes ->]].
  - apply with_entry_other, Hlog.
  - apply lookup_insert_ne. congruence.
Qed.

Lemma writes_extend_log f f' old :
  rtc script_write f f' ->
  f !! LOG_FILE = Some old ->
  exists suffix, f' !! LOG_FILE = Some (old +:+ suffix).
Proof.
  intros H. revert old. induction H as [f | f f1 f2 Hstep _ IH]; intros old Hold.
  - exists "". rewrite string_app_nil_r. exact Hold.
  - destruct Hstep as [[entry ->] | [bytes ->]].
    + destruct (IH (old +:+ entry)) as [suffix Hs].
      * unfold with_entry. rewrite lookup_insert_eq, Hold. reflexivity.
      * exists (entry +:+ suffix). rewrite <- string_app_assoc. exact Hs.
    + apply IH. rewrite lookup_insert_ne by discriminate. exact Hold.
Qed.

(** X8.  The log is append-only over a whole run.  However the run ends,
    the log file exists afterwards and its content is what it was before
    the run (nothing, if there was no log) followed by what the run
    appended: entries of earlier runs are never removed. *)
Theorem script_log_is_append_only w st :
  exists suffix,
    fs (snd (script w st)) !! LOG_FILE
      = Some (default "" (fs st !! LOG_FILE) +:+ suffix).
Proof.
  apply (writes_extend_log _ _ _ (script_writes w st)).
  unfold with_entry. rewrite lookup_insert_eq, string_app_nil_r. reflexivity.
Qed.

(** X9.  A run writes two files at most, the log and daily_report.xlsx:
    every other path holds after the run what it held before, however the
    run ends. *)
Theorem script_touches_two_files_only w st path :
  path <> LOG_FILE ->
  path <> "daily_report.xlsx" ->
  fs (snd (script w st)) !! path = fs st !! path.
Proof.
  intros Hlog Hrep.
  rewrite (writes_keep_other_files _ _ path (script_writes w st) Hlog Hrep).
  apply with_entry_other, Hlog.
Qed.

Lemma script_touches_two_files_witness :
  fs (snd (script troubled_world notes_on_disk)) !! "notes.txt" = Some "keep me".
Proof.
  rewrite (script_touches_two_files_only troubled_world notes_on_disk "notes.txt");
    [reflexivity | discriminate | discriminate].
Defined.

(** ** The SMTP session *)

(** [send_email_with_attachments] with everything it leaves behind. *)
Lemma send_email_trace w host port user pass to subject body atts st :
  let msg := Email user to subject body (file_parts (fs st) atts) in
  exists st' accepted,
    send_email_with_attachments w host port user pass to subject body atts st
      = (Ok tt, st') /\
    smtp_log st' = (smtp_log st ++ accepted)%list /\
    accepted `prefix_of` session_events host port user pass msg /\
    http_log st' = http_log st /\
    match smtp_failure (smtp w) host port user pass msg with
    | Some e =>
        accepted <> session_events host port user pass msg /\
        fs st' = with_entry (error_entry (clock w (ticks st)) "Email sending failed" e)
                            (fs st) /\
        stdout st' = (stdout st ++ ["ERROR: Email sending failed, check error.log"])%list
    | None =>
        accepted = session_events host port user pass msg /\
        fs st' = fs st /\
        stdout st' = (stdout st ++ ["Email sent successfully!"])%list
    end.
Proof.
  intros msg. unfold send_email_with_attachments.
  rewrite run_bind, attach_files_run. cbn [app]. fold msg.
  destruct st as [f out hl sl t].
  unfold smtp_failure, session_events, try_except, smtp_step, log_error, logging_error,
    now, append_file, print, modify, get_state, lift, ret, raise, bind. simpl.
  destruct (smtp_connect (smtp w) host port) as [e |]; simpl.
  { eexists _, []. split; [reflexivity |]. simpl.
    split; [rewrite app_nil_r; reflexivity |]. split; [eexists; reflexivity |].
    split; [reflexivity |]. split; [discriminate |]. split; reflexivity. }
  destruct (smtp_starttls (smtp w)) as [e |]; simpl.
  { eexists _, [_]. split; [reflexivity |]. simpl.
    split; [reflexivity |]. split; [eexists; reflexivity |].
    split; [reflexivity |]. split; [discriminate |]. split; reflexivity. }
  destruct (smtp_login (smtp w) user pass) as [e |]; simpl.
  { eexists _, [_; _]. split; [reflexivity |]. simpl.
    split; [rewrite <- !app_assoc; reflexivity |]. split; [eexists; reflexivity |].
    split; [reflexivity |]. split; [discriminate |]. split; reflexivity. }
  destruct (smtp_send_message (smtp w) msg) as [e |]; simpl.
  { eexists _, [_; _; _]. split; [reflexivity |]. simpl.
    split; [rewrite <- !app_assoc; reflexivity |]. split; [eexists; reflexivity |].
    split; [reflexivity |]. split; [discriminate |]. split; reflexivity. }
  destruct (smtp_quit (smtp w)) as [e |]; simpl.
  { eexists _, [_; _; _; _]. split; [reflexivity |]. simpl.
    split; [rewrite <- !app_assoc; reflexivity |]. split; [eexists; reflexivity |].
    split; [reflexivity |]. split; [discriminate |]. split; reflexivity. }
  eexists _, _. split; [reflexivity |]. simpl.
  split; [rewrite <- !app_assoc; reflexivity |]. split; [exists []; reflexivity |].
  split; [reflexivity |]. split; [reflexivity |]. split; reflexivity.
Qed.

(** X10.  The commands the server accepts during one call always form an
    initial segment of connect, STARTTLS, login, send, quit: no login
    before the channel is encrypted, no message before the login.  The
    segment is the whole session exactly when no command is refused. *)
Theorem smtp_commands_in_order w host port user pass to subject body atts st :
  let msg := Email user to subject body (file_parts (fs st) atts) in
  exists st' accepted,
    send_email_with_attachments w host port user pass to subject body atts st
      = (Ok tt, st') /\
    smtp_log st' = (smtp_log st ++ accepted)%list /\
    accepted `prefix_of`
      [SmtpConnected host port; SmtpStartedTLS; SmtpLoggedIn user pass;
       SmtpSent msg; SmtpQuit] /\
    (accepted = [SmtpConnected host port; SmtpStartedTLS; SmtpLoggedIn user pass;
                 SmtpSent msg; SmtpQuit]
     <-> smtp_failure (smtp w) host port user pass msg = None).
Proof.
  intros msg.
  destruct (send_email_trace w host port user pass to subject body atts st)
    as (st' & accepted & Hrun & Hlog & Hpre & _ & Hcase).
  exists st', accepted. split; [exact Hrun |]. split; [exact Hlog |].
  split; [exact Hpre |]. fold msg in Hcase.
  fold (session_events host port user pass msg).
  destruct (smtp_failure (smtp w) host port user pass msg) as [e |].
  - destruct Hcase as [Hne _]. split; [contradiction | discriminate].
  - destruct Hcase as [Heq _]. split; auto.
Qed.

(** X11.  When the server accepts the message and then refuses [quit],
    the call reports a failure although the message went out: the send
    command is among the accepted ones, one "Email sending failed" entry
    is logged and the error line is printed instead of the success line. *)
Theorem refused_quit_is_reported_as_failed_send
    w host port user pass to subject body atts st e :
  let msg := Email user to subject body (file_parts (fs st) atts) in
  smtp_connect (smtp w) host port = None ->
  smtp_starttls (smtp w) = None ->
  smtp_login (smtp w) user pass = None ->
  smtp_send_message (smtp w) msg = None ->
  smtp_quit (smtp w) = Some e ->
  exists st',
    send_email_with_attachments w host port user pass to subject body atts st
      = (Ok tt, st') /\
    In (SmtpSent msg) (smtp_log st') /\
    fs st' = with_entry (error_entry (clock w (ticks st)) "Email sending failed" e) (fs st) /\
    stdout st' = (stdout st ++ ["ERROR: Email sending failed, check error.log"])%list.
Proof.
  intros msg Hc Ht Hl Hs Hq. unfold send_email_with_attachments.
  rewrite run_bind, attach_files_run. cbn [app]. fold msg.
  destruct st as [f out hl sl t].
  unfold try_except, smtp_step, log_error, logging_error,
    now, append_file, print, modify, get_state, lift, ret, raise, bind. simpl.
  rewrite Hc. simpl. rewrite Ht. simpl. rewrite Hl. simpl. rewrite Hs. simpl.
  rewrite Hq. simpl.
  eexists. split; [reflexivity |]. simpl. split; [| split; reflexivity].
  rewrite <- !app_assoc. apply in_or_app. right. simpl. auto.
Qed.

Lemma refused_quit_witness :
  exists st',
    send_email_with_attachments (world_with_smtp quit_refusing_smtp) None 587 None None None
      "s" "b" ["daily_report.xlsx"] report_on_disk = (Ok tt, st') /\
    In (SmtpSent (Email None None "s" "b"
                    [Attachment "application/octet-stream" "PK" "base64"
                                "attachment; filename=daily_report.xlsx"]))
       (smtp_log st') /\
    fs st' = with_entry (error_entry "t0" "Email sending failed"
                           (Exn SMTPException "Connection unexpectedly closed"))
                        (fs report_on_disk) /\
    stdout st' = ["ERROR: Email sending failed, check error.log"].
Proof.
  apply (refused_quit_is_reported_as_failed_send
           (world_with_smtp quit_refusing_smtp) None 587 None None None
           "s" "b" ["daily_report.xlsx"] report_on_disk
           (Exn SMTPException "Connection unexpectedly closed"));
    reflexivity.
Defined.

(** ** Attachments *)

(** X12.  The loop over the attachments only reads: the state is left as
    it was, and the message gets one part per existing path, in the order
    of the list, each carrying the bytes of its file, typed
    application/octet-stream and marked base64. *)
Theorem attachments_carry_file_contents paths st :
  exists parts,
    attach_files paths [] st = (Ok parts, st) /\
    length parts = length (existing (fs st) paths) /\
    map (fun part => Some (payload part)) parts
      = map (fun path => fs st !! path) (existing (fs st) paths) /\
    Forall (fun part => content_type part = "application/octet-stream"
                        /\ transfer_encoding part = "base64") parts.
Proof.
  rewrite attach_files_run. cbn [app]. eexists. split; [reflexivity |].
  unfold existing. induction paths as [| p paths IH]; [repeat constructor |].
  cbn [file_parts List.filter]. destruct (fs st !! p) as [content |] eqn:E.
  - rewrite bool_decide_eq_true_2 by eauto. destruct IH as (Hlen & Hpay & Hall).
    cbn [length map payload]. rewrite Hlen, Hpay, E.
    split; [reflexivity |]. split; [reflexivity |].
    constructor; [split; reflexivity | exact Hall].
  - rewrite bool_decide_eq_false_2 by (intros [? ?]; congruence). exact IH.
Qed.

(** ** The message of a run *)

Lemma fetch_api_data_quiet w url hdrs st :
  exists v st',
    fetch_api_data w url hdrs st = (Ok v, st') /\
    smtp_log st' = smtp_log st /\
    rtc script_write (fs st) (fs st').
Proof.
  pose proof (writes_fetch w url hdrs st) as Hw. revert Hw.
  rewrite fetch_api_data_run.
  destruct (http_get w (length (http_log st)) url hdrs) as [e | r];
    [intros Hw; eexists _, _; split; [reflexivity | split; [reflexivity | exact Hw]] |].
  destruct (raise_for_status r) as [[] | e];
    [| intros Hw; eexists _, _; split; [reflexivity | split; [reflexivity | exact Hw]]].
  destruct (json_body r) as [e | data];
    [intros Hw; eexists _, _; split; [reflexivity | split; [reflexivity | exact Hw]] |].
  destruct data; intros Hw; eexists _, _;
    (split; [reflexivity | split; [reflexivity | exact Hw]]).
Qed.

(** The run from the end of the configuration block to the call of
    [send_email_with_attachments]. *)
Lemma script_after_config w st port :
  py_int (unicode w) (getenv_default w "SMTP_PORT" "587") = Ok port ->
  exists users st1 posts st2 todos st3,
    fetch_api_data w (getenv_default w "API1_URL" "https://jsonplaceholder.typicode.com/users")
      (Some (request_headers w)) (started st) = (Ok users, st1) /\
    fetch_api_data w (getenv_default w "API2_URL" "https://jsonplaceholder.typicode.com/posts")
      (Some (request_headers w)) st1 = (Ok posts, st2) /\
    fetch_api_data w (getenv_default w "API3_URL" "https://jsonplaceholder.typicode.com/todos")
      (Some (request_headers w)) st2 = (Ok todos, st3) /\
    smtp_log st3 = smtp_log st /\
    rtc script_write (with_entry "" (fs st)) (fs st3) /\
    match report_sheets users posts todos with
    | Raise e =>
        script w st =
        (Raise e,
         set_ticks S (set_stdout (fun out => (out ++ ["Creating Excel report..."])%list) st3))
    | Ok shs =>
        exists n_users n_posts n_todos,
          py_len users = Ok n_users /\ py_len posts = Ok n_posts /\
          py_len todos = Ok n_todos /\
          let st4 :=
            after_report w "daily_report.xlsx" shs
              (set_stdout (fun out => (out ++ ["Creating Excel report..."])%list) st3) in
          script w st =
          bind
            (send_email_with_attachments w (getenv w "SMTP_HOST") port
               (getenv w "SMTP_USER") (getenv w "SMTP_PASS") (getenv w "TO_EMAIL")
               "Daily Multi-API Report"
               (join nl (body_lines_of n_users n_posts n_todos (log_nonemptyb (fs st4))
                                       (clock w (ticks st4))))
               (if log_nonemptyb (fs st4) then ["daily_report.xlsx"; LOG_FILE]
                else ["daily_report.xlsx"]))
            (fun _ => print "Job finished.")
            (set_stdout (fun out => (out ++ ["Sending email..."])%list) (set_ticks S st4))
    end.
Proof.
  intros Hport. rewrite script_run. unfold main. rewrite bind_print, bind_lift, Hport.
  fold (started st). fold (request_headers w).
  destruct (fetch_api_data_quiet w
              (getenv_default w "API1_URL" "https://jsonplaceholder.typicode.com/users")
              (Some (request_headers w)) (started st)) as (users & st1 & H1 & Hs1 & Hw1).
  destruct (fetch_api_data_quiet w
              (getenv_default w "API2_URL" "https://jsonplaceholder.typicode.com/posts")
              (Some (request_headers w)) st1) as (posts & st2 & H2 & Hs2 & Hw2).
  destruct (fetch_api_data_quiet w
              (getenv_default w "API3_URL" "https://jsonplaceholder.typicode.com/todos")
              (Some (request_headers w)) st2) as (todos & st3 & H3 & Hs3 & Hw3).
  exists users, st1, posts, st2, todos, st3.
  split; [exact H1 |]. split; [exact H2 |]. split; [exact H3 |].
  split; [rewrite Hs3, Hs2, Hs1; reflexivity |].
  split.
  { change (rtc script_write (fs (started st)) (fs st3)).
    eapply rtc_trans; [eapply rtc_trans; [exact Hw1 | exact Hw2] | exact Hw3]. }
  rewrite run_bind, H1, run_bind, H2, run_bind, H3.
  rewrite bind_print, run_bind, create_report_excel_run.
  destruct (report_sheets users posts todos) as [shs | e] eqn:Er; [| reflexivity].
  destruct (report_sheets_len _ _ _ _ Er) as (nu & np & nt & Hu & Hp & Ht).
  exists nu, np, nt. split; [exact Hu |]. split; [exact Hp |]. split; [exact Ht |].
  cbv zeta.
  rewrite run_bind, compose_body_lines_run, Hu, Hp, Ht.
  rewrite bind_print, run_bind, choose_attachments_run.
  reflexivity.
Qed.

Lemma write_sheet_title ws data mapping ws' :
  write_sheet_from_json ws data mapping = Ok ws' -> title ws' = title ws.
Proof.
  unfold write_sheet_from_json. destruct (py_iter data) as [items | e]; [| discriminate].
  cbn [rbind].
  destruct (write_rows _ items (map snd mapping)) as [ws1 | e] eqn:Ew; [| discriminate].
  cbn [rbind]. intros [= <-].
  destruct (write_rows_app _ _ _ _ Ew) as (data' & -> & _). cbn [autosize_columns title].
  unfold style_first_row, ws_append. cbn [rows title].
  destruct (rows ws ++ [map plain_cell (map PStr (map fst mapping))])%list; reflexivity.
Qed.

Lemma report_sheets_titles users posts todos shs :
  report_sheets users posts todos = Ok shs ->
  map title shs = ["Users"; "Posts"; "Todos"].
Proof.
  unfold report_sheets.
  destruct (write_sheet_from_json _ users _) as [u | e] eqn:Eu; [| discriminate].
  destruct (write_sheet_from_json _ posts _) as [p | e] eqn:Ep; [| discriminate].
  destruct (write_sheet_from_json _ todos _) as [d | e] eqn:Ed; [| discriminate].
  cbn [rbind]. intros [= <-]. cbn [map].
  rewrite (write_sheet_title _ _ _ _ Eu), (write_sheet_title _ _ _ _ Ep),
    (write_sheet_title _ _ _ _ Ed). reflexivity.
Qed.


(** Every message a run hands to the server, with the file system it was
    built from. *)
Lemma sent_message_shape w st msg :
  In (SmtpSent msg) (drop (length (smtp_log st)) (smtp_log (snd (script w st)))) ->
  exists n_users n_posts n_todos utcnow wb f,
    msg = Email (getenv w "SMTP_USER") (getenv w "TO_EMAIL") "Daily Multi-API Report"
                (join nl (body_lines_of n_users n_posts n_todos (log_nonemptyb f) utcnow))
                (file_parts f (if log_nonemptyb f then ["daily_report.xlsx"; LOG_FILE]
                               else ["daily_report.xlsx"])) /\
    f !! "daily_report.xlsx" = Some (xlsx_bytes w wb) /\
    map title (sheets wb) = ["Users"; "Posts"; "Todos"] /\
    rtc script_write (with_entry "" (fs st)) f /\
    fs (snd (script w st)) !! "daily_report.xlsx" = Some (xlsx_bytes w wb).
Proof.
  intros Hin.
  destruct (py_int (unicode w) (getenv_default w "SMTP_PORT" "587")) as [port | e] eqn:Hport.
  - destruct (script_after_config w st port Hport)
      as (users & st1 & posts & st2 & todos & st3 & _ & _ & _ & Hsmtp & Hw & Hrun).
    destruct (report_sheets users posts todos) as [shs | e] eqn:Er.
    + destruct Hrun as (nu & np & nt & _ & _ & _ & Hrun). cbv zeta in Hrun.
      rewrite Hrun in Hin |- *. clear Hrun. rewrite run_bind in Hin |- *.
      match type of Hin with
      | context [send_email_with_attachments ?w ?a ?b ?c ?d ?e ?f ?g ?h ?s] =>
          destruct (send_email_trace w a b c d e f g h s)
            as (st6 & accepted & Hsend & Hlog & Hpre & _ & Hcase)
      end.
      rewrite Hsend in Hin |- *. cbn [snd print modify set_stdout smtp_log fs] in Hin |- *.
      rewrite Hlog in Hin. cbn [smtp_log set_stdout set_ticks after_report] in Hin.
      rewrite Hsmtp, drop_app_length in Hin.
      destruct Hpre as [rest Hpre].
      assert (Hin' : In (SmtpSent msg) (accepted ++ rest)) by (apply in_or_app; auto).
      rewrite <- Hpre in Hin'. unfold session_events in Hin'.
      destruct Hin' as [H | [H | [H | [H | [H | []]]]]]; try discriminate H.
      injection H as <-.
      eexists nu, np, nt, _, (Workbook shs _ _), _.
      split; [reflexivity |]. cbn [fs set_stdout set_ticks after_report].
      split; [apply lookup_insert_eq |].
      split; [exact (report_sheets_titles _ _ _ _ Er) |].
      split.
      * eapply rtc_r; [exact Hw |]. right. eexists. reflexivity.
      * cbn [fs set_stdout set_ticks after_report] in Hcase.
        destruct (smtp_failure _ _ _ _ _ _) as [e |].
        -- destruct Hcase as (_ & -> & _). rewrite with_entry_other by discriminate.
           apply lookup_insert_eq.
        -- destruct Hcase as (_ & -> & _). apply lookup_insert_eq.
    + rewrite Hrun in Hin. cbn [snd smtp_log set_ticks set_stdout] in Hin.
      rewrite Hsmtp, drop_all in Hin. destruct Hin.
  - rewrite script_run in Hin. unfold main in Hin.
    rewrite bind_print, bind_lift, Hport in Hin.
    cbn [snd smtp_log set_stdout after_logging_setup set_fs] in Hin.
    rewrite drop_all in Hin. destruct Hin.
Qed.

(** X13.  Every message a run sends has the subject "Daily Multi-API
    Report", goes from SMTP_USER to TO_EMAIL, and carries as its first
    attachment, named daily_report.xlsx, the workbook of three sheets
    Users, Posts, Todos built in this run: the very bytes found at that
    path when the run ends. *)
Theorem sent_message_carries_the_report w st msg :
  In (SmtpSent msg) (drop (length (smtp_log st)) (smtp_log (snd (script w st)))) ->
  msg_subject msg = "Daily Multi-API Report" /\
  msg_from msg = getenv w "SMTP_USER" /\
  msg_to msg = getenv w "TO_EMAIL" /\
  exists wb rest,
    msg_parts msg =
      Attachment "application/octet-stream" (xlsx_bytes w wb) "base64"
                 "attachment; filename=daily_report.xlsx" :: rest /\
    map title (sheets wb) = ["Users"; "Posts"; "Todos"] /\
    fs (snd (script w st)) !! "daily_report.xlsx" = Some (xlsx_bytes w wb).
Proof.
  intros Hin.
  destruct (sent_message_shape w st msg Hin)
    as (nu & np & nt & utcnow & wb & f & -> & Hrep & Htitles & _ & Hend).
  cbn [msg_subject msg_from msg_to msg_parts].
  split; [reflexivity |]. split; [reflexivity |]. split; [reflexivity |].
  exists wb. destruct (log_nonemptyb f); cbn [file_parts]; rewrite Hrep;
    eexists; (split; [reflexivity |]); split; assumption.
Qed.


Lemma sent_message_carries_the_report_witness :
  exists msg,
    In (SmtpSent msg) (smtp_log (snd (script (world_with_env ∅) empty_state))) /\
    msg_subject msg = "Daily Multi-API Report" /\
    exists rest,
      msg_parts msg =
        Attachment "application/octet-stream" "PK" "base64"
                   "attachment; filename=daily_report.xlsx" :: rest.
Proof.
  assert (H : exists msg,
             In (SmtpSent msg)
                (drop (length (smtp_log empty_state))
                      (smtp_log (snd (script (world_with_env ∅) empty_state))))).
  { eexists. vm_compute. do 3 right. left. reflexivity. }
  destruct H as [msg H]. exists msg. split; [exact H |].
  destruct (sent_message_carries_the_report (world_with_env ∅) empty_state msg H)
    as (Hsubject & _ & _ & wb & rest & Hparts & _ & _).
  split; [exact Hsubject |]. exists rest. exact Hparts.
Defined.


(** ** A run in which every source fails *)

Lemma fetch_fails_value w url hdrs st :
  fetch_fails w st url hdrs -> fst (fetch_api_data w url hdrs st) = Ok (PList []).
Proof.
  unfold fetch_fails. rewrite fetch_api_data_run.
  destruct (http_get w (length (http_log st)) url hdrs) as [e | r]; [reflexivity |].
  intros [Hs | [e He]].
  - destruct (raise_for_status_error r Hs) as [e ->]. reflexivity.
  - rewrite He. destruct (raise_for_status r) as [[] | e']; reflexivity.
Qed.

(** X15.  When the port parses and every fetch fails, the run still ends
    normally with exit status 0, after exactly three requests, and leaves
    at daily_report.xlsx a workbook whose three sheets hold their header
    row and nothing else. *)
Theorem all_sources_failing_gives_header_only_report w st :
  is_Some (int_literal (unicode w) (getenv_default w "SMTP_PORT" "587")) ->
  (forall st0 url hdrs, fetch_fails w st0 url hdrs) ->
  exists st' wb,
    script w st = (Ok tt, st') /\
    exit_code (fst (script w st)) = 0 /\
    length (requests_of st st') = 3%nat /\
    fs st' !! "daily_report.xlsx" = Some (xlsx_bytes w wb) /\
    map values_of (sheets wb) =
      [ [ [PStr "ID"; PStr "Name"; PStr "Username"; PStr "Email"] ];
        [ [PStr "ID"; PStr "User ID"; PStr "Title"] ];
        [ [PStr "ID"; PStr "User ID"; PStr "Title"; PStr "Completed"] ] ].
Proof.
  intros [port Hlit] Hfail.
  assert (Hport : py_int (unicode w) (getenv_default w "SMTP_PORT" "587") = Ok port)
    by (unfold py_int; rewrite Hlit; reflexivity).
  pose proof (script_requests w st) as Hreqs. rewrite Hlit in Hreqs.
  destruct (script_after_config w st port Hport)
    as (users & st1 & posts & st2 & todos & st3 & H1 & H2 & H3 & _ & _ & Hrun).
  pose proof (fetch_fails_value w
                (getenv_default w "API1_URL" "https://jsonplaceholder.typicode.com/users")
                (Some (request_headers w)) (started st) (Hfail _ _ _)) as V1.
  pose proof (fetch_fails_value w
                (getenv_default w "API2_URL" "https://jsonplaceholder.typicode.com/posts")
                (Some (request_headers w)) st1 (Hfail _ _ _)) as V2.
  pose proof (fetch_fails_value w
                (getenv_default w "API3_URL" "https://jsonplaceholder.typicode.com/todos")
                (Some (request_headers w)) st2 (Hfail _ _ _)) as V3.
  rewrite H1 in V1. rewrite H2 in V2. rewrite H3 in V3.
  cbn [fst] in V1, V2, V3. injection V1 as ->. injection V2 as ->. injection V3 as ->.
  pose proof (report_sheets_records [] [] []) as Hrep. cbn [map] in Hrep.
  rewrite Hrep in Hrun. clear Hrep.
  destruct Hrun as (nu & np & nt & _ & _ & _ & Hrun). cbv zeta in Hrun.
  rewrite Hrun in Hreqs |- *. clear Hrun. rewrite run_bind in Hreqs |- *.
  match goal with
  | |- context [send_email_with_attachments ?w ?a ?b ?c ?d ?e ?f ?g ?h ?s] =>
      destruct (send_email_trace w a b c d e f g h s)
        as (st6 & accepted & Hsend & _ & _ & _ & Hcase)
  end.
  rewrite Hsend in Hreqs |- *. cbn [fst snd print modify] in Hreqs |- *.
  eexists _, (Workbook _ _ _). split; [reflexivity |]. split; [reflexivity |].
  split; [rewrite Hreqs; reflexivity |]. split.
  - cbn [fs set_stdout set_ticks after_report] in Hcase |- *.
    destruct (smtp_failure _ _ _ _ _ _) as [e |].
    + destruct Hcase as (_ & -> & _). rewrite with_entry_other by discriminate.
      apply lookup_insert_eq.
    + destruct Hcase as (_ & -> & _). apply lookup_insert_eq.
  - reflexivity.
Qed.

Lemma all_sources_failing_witness :
  exists st' wb,
    script (world_answering ∅ not_found) empty_state = (Ok tt, st') /\
    fs st' !! "daily_report.xlsx" = Some "PK" /\
    map values_of (sheets wb) =
      [ [ [PStr "ID"; PStr "Name"; PStr "Username"; PStr "Email"] ];
        [ [PStr "ID"; PStr "User ID"; PStr "Title"] ];
        [ [PStr "ID"; PStr "User ID"; PStr "Title"; PStr "Completed"] ] ].
Proof.
  destruct (all_sources_failing_gives_header_only_report
              (world_answering ∅ not_found) empty_state)
    as (st' & wb & Hrun & _ & _ & Hfile & Hsheets).
  - exists 587. reflexivity.
  - intros st0 url hdrs. unfold fetch_fails, world_answering, not_found; cbn.
    left. lia.
  - exists st', wb. split; [exact Hrun |]. split; [exact Hfile | exact Hsheets].
Defined.

(** ** What the fetcher hands on *)

(** X16.  Whatever the server answers, [fetch_api_data] returns a value
    and that value is never a bare dict: a dict body comes back inside a
    list of length one, so counting the result never counts the keys of a
    record. *)
Theorem fetch_api_data_never_returns_a_dict w url hdrs st :
  exists v,
    fst (fetch_api_data w url hdrs st) = Ok v /\
    is_dict v = false /\
    forall r kvs,
      http_get w (length (http_log st)) url hdrs = GetReturns r ->
      raise_for_status r = Ok tt ->
      json_body r = inr (PDict kvs) ->
      v = PList [PDict kvs] /\ py_len v = Ok 1%nat.
Proof.
  rewrite fetch_api_data_run.
  destruct (http_get w (length (http_log st)) url hdrs) as [e | r].
  - eexists. split; [reflexivity |]. split; [reflexivity |]. intros r kvs [=].
  - destruct (raise_for_status r) as [[] | e] eqn:Hs.
    + destruct (json_body r) as [e | data] eqn:Hj.
      * eexists. split; [reflexivity |]. split; [reflexivity |].
        intros r' kvs [= <-] _ Hj'. congruence.
      * destruct data; eexists; (split; [reflexivity |]); (split; [reflexivity |]);
          intros r' kvs' [= <-] _ Hj'; try congruence.
        assert (kvs = kvs') as -> by congruence. split; reflexivity.
    + eexists. split; [reflexivity |]. split; [reflexivity |].
      intros r' kvs [= <-] Hs'. congruence.
Qed.

(** ** One session per run *)

(** X17.  The SMTP commands of a whole run are an initial segment of one
    session: the connection goes to SMTP_HOST on the port read from
    SMTP_PORT (587 when unset), the login uses SMTP_USER and SMTP_PASS,
    and at most one message is sent.  A run that stops before Step 4 sends
    no command at all. *)
Theorem script_opens_at_most_one_session w st :
  exists port msg,
    drop (length (smtp_log st)) (smtp_log (snd (script w st)))
      `prefix_of`
      [ SmtpConnected (getenv w "SMTP_HOST") port; SmtpStartedTLS;
        SmtpLoggedIn (getenv w "SMTP_USER") (getenv w "SMTP_PASS");
        SmtpSent msg; SmtpQuit ] /\
    (drop (length (smtp_log st)) (smtp_log (snd (script w st))) <> [] ->
     int_literal (unicode w) (getenv_default w "SMTP_PORT" "587") = Some port /\
     exists st', script w st = (Ok tt, st')).
Proof.
  destruct (py_int (unicode w) (getenv_default w "SMTP_PORT" "587")) as [port | e] eqn:Hport.
  - assert (Hlit : int_literal (unicode w) (getenv_default w "SMTP_PORT" "587") = Some port).
    { unfold py_int in Hport. destruct (int_literal _ _); congruence. }
    destruct (script_after_config w st port Hport)
      as (users & st1 & posts & st2 & todos & st3 & _ & _ & _ & Hsmtp & _ & Hrun).
    destruct (report_sheets users posts todos) as [shs | e].
    + destruct Hrun as (nu & np & nt & _ & _ & _ & Hrun). cbv zeta in Hrun.
      rewrite Hrun. clear Hrun. rewrite run_bind.
      match goal with
      | |- context [send_email_with_attachments ?w ?a ?b ?c ?d ?e ?f ?g ?h ?s] =>
          destruct (send_email_trace w a b c d e f g h s)
            as (st6 & accepted & Hsend & Hlog & Hpre & _ & _)
      end.
      rewrite Hsend. cbn [snd print modify set_stdout smtp_log].
      rewrite Hlog. cbn [smtp_log set_stdout set_ticks after_report].
      rewrite Hsmtp, drop_app_length.
      eexists port, _. split; [exact Hpre |]. intros _. split; [exact Hlit |].
      eexists. reflexivity.
    + rewrite Hrun. cbn [snd smtp_log set_ticks set_stdout].
      rewrite Hsmtp, drop_all.
      exists port, (Email None None "" "" []). split; [eexists; reflexivity |].
      intros H. contradiction.
  - rewrite script_run. unfold main. rewrite bind_print, bind_lift, Hport.
    cbn [snd smtp_log set_stdout after_logging_setup set_fs]. rewrite drop_all.
    exists 0, (Email None None "" "" []). split; [eexists; reflexivity |].
    intros H. contradiction.
Qed.

(** ** Ill-typed inputs at work *)

Lemma write_sheet_from_json_needs_records_witness :
  exists e,
    write_sheet_from_json (Worksheet "Users" [] ∅) (PList [PInt 1; PDict ann]) user_mapping
      = Raise e /\
    exn_cls e = AttributeError.
Proof.
  apply (proj2 (proj2 (write_sheet_from_json_needs_records
                         (Worksheet "Users" [] ∅) (PList [PInt 1; PDict ann]) user_mapping))
           (PInt 1) [PDict ann]).
  - reflexivity.
  - reflexivity.
  - discriminate.
Defined.

Lemma create_report_excel_needs_records_witness :
  exists e st',
    create_report_excel (world_with_env ∅) (PList [PDict ann]) (PInt 5) (PList [])
      "daily_report.xlsx" report_on_disk = (Raise e, st') /\
    fs st' = fs report_on_disk.
Proof.
  apply (proj2 (create_report_excel_needs_records (world_with_env ∅)
                  (PList [PDict ann]) (PInt 5) (PList []) "daily_report.xlsx"
                  report_on_disk)).
  intros (_ & (items & Hiter & _) & _). discriminate Hiter.
Defined.
